(** * The edge relay node: inbound handlers and the processing path

    A shallow embedding of the edge node of the three-tier pipeline:
    - [helpers/common.py]: [get_device_id] and the three partition
      functions;
    - [EdgeNode.py]: [EdgeNode.process_iot_data] and the [connect],
      [disconnect] and [recv] handlers bound to the node's server;
    - [trigger.py]: the [connect], [disconnect] and [recv] handlers of
      [start_edge], which hand batches to a queue, and [start_iot].

    Python objects crossing the wire are values of [value]; dictionaries
    are finite maps with string keys.  Time readings and the two counters
    are rationals.  Every call that leaves the node (logger, clock,
    inference step, upstream emit) and every write to one of the two
    counters is recorded, in program order, in the [trace] of the node
    state, so that statements about ordering and about what was or was not
    logged or emitted are statements about that list.  The upstream
    session is taken to be up: an emit hands its message over and
    returns. *)

From Stdlib Require Import QArith.
From stdpp Require Import base option list strings gmap pretty.

Local Open Scope Q_scope.

(** ** Python values and exceptions *)

#[warnings="-register-all"]
Inductive value : Type :=
  | VNone
  | VBool (b : bool)
  | VNum (q : Q)
  | VStr (s : string)
  | VList (l : list value).

(** A message payload ([data] in the handlers) and an outbound message. *)
Abbreviation payload := (gmap string value).

(** A session as stored by [save_session]: [{"device_id": device_id}]. *)
Abbreviation session := (gmap string string).

Inductive exn : Type :=
  | KeyError (key : string)
  | TypeError (what : string)
  | Failure (what : string).

Inductive result (A : Type) : Type :=
  | Ok (a : A)
  | Raise (e : exn).
Arguments Ok {A} a.
Arguments Raise {A} e.

(** ** Calls leaving the node *)

Inductive log_msg : Type :=
  | MsgReceived (device_id : string) (n : nat)
      (* "Received data from IoT device {device_id}: {len(data)} image paths" *)
  | MsgReceivedFrom (device_id : string)
      (* "Received data from IoT device {device_id}" *)
  | MsgAccTranstime (device_id : string) (v : value)
      (* "Accumulated transmission time from IoT device {device_id}: {v}s" *)
  | MsgConnected (device_id sid : string)
      (* "IoT device {device_id} connected, session ID: {sid}" *)
  | MsgDisconnected (device_id : string)
      (* "IoT device {device_id} disconnected" *)
  | MsgError (e : exn).
      (* "An error occurred: {e}" *)

Inductive counter : Type := Transtime | Proctime.

Inductive call : Type :=
  | LogInfo (m : log_msg)          (* logger.info *)
  | LogError (m : log_msg)         (* logger.error *)
  | Time (t : Q)                   (* time.time(), with the value read *)
  | Predict (items : list value)   (* predict_images(items, model) *)
  | Emit (event : string) (data : payload)  (* sio_client.emit(event, data=...) *)
  | Store (c : counter) (q : Q).   (* self.transtime = q, self.proctime = q *)

Definition is_log (c : call) : bool :=
  match c with LogInfo _ | LogError _ => true | _ => false end.

Definition is_emit (c : call) : bool :=
  match c with Emit _ _ => true | _ => false end.

Definition is_predict (c : call) : bool :=
  match c with Predict _ => true | _ => false end.

(** ** Node state *)

Record state : Type := mkState {
  transtime : Q;                              (* edge_node.transtime *)
  proctime : Q;                               (* edge_node.proctime *)
  sessions : gmap string session;             (* the server's session store *)
  queue : list (string * payload);            (* edge_node.queue (trigger.py) *)
  trace : list call;                          (* calls made so far, oldest first *)
  ticks : nat                                 (* number of clock readings so far *)
}.

(** [EdgeNode.__init__]: both counters start at 0. *)
Definition init : state :=
  {| transtime := 0; proctime := 0; sessions := ∅; queue := [];
     trace := []; ticks := 0 |}.

Definition set_transtime (q : Q) (s : state) : state :=
  {| transtime := q; proctime := proctime s; sessions := sessions s;
     queue := queue s; trace := trace s ++ [Store Transtime q];
     ticks := ticks s |}.

Definition set_proctime (q : Q) (s : state) : state :=
  {| transtime := transtime s; proctime := q; sessions := sessions s;
     queue := queue s; trace := trace s ++ [Store Proctime q];
     ticks := ticks s |}.

Definition set_sessions (m : gmap string session) (s : state) : state :=
  {| transtime := transtime s; proctime := proctime s; sessions := m;
     queue := queue s; trace := trace s; ticks := ticks s |}.

Definition set_queue (q : list (string * payload)) (s : state) : state :=
  {| transtime := transtime s; proctime := proctime s; sessions := sessions s;
     queue := q; trace := trace s; ticks := ticks s |}.

Definition record (c : call) (s : state) : state :=
  {| transtime := transtime s; proctime := proctime s; sessions := sessions s;
     queue := queue s; trace := trace s ++ [c]; ticks := ticks s |}.

Definition tick (s : state) : state :=
  {| transtime := transtime s; proctime := proctime s; sessions := sessions s;
     queue := queue s; trace := trace s; ticks := S (ticks s) |}.

(** ** Statements that may raise: state and exception monad

    A raised exception keeps the state reached so far, as in Python. *)

Definition Py (A : Type) : Type := state → state * result A.

Definition ret {A} (a : A) : Py A := λ s, (s, Ok a).

Definition bind {A B} (m : Py A) (k : A → Py B) : Py B :=
  λ s, match m s with
       | (s', Ok a) => k a s'
       | (s', Raise e) => (s', Raise e)
       end.

Definition lift {A} (r : result A) : Py A := λ s, (s, r).

Definition get : Py state := λ s, (s, Ok s).

Definition modify (f : state → state) : Py unit := λ s, (f s, Ok tt).

#[global] Instance Py_ret : MRet Py := @ret.
#[global] Instance Py_bind : MBind Py := λ A B k m, bind m k.

(** ** Python primitives used by the handlers *)

(** [k in d and d[k] is not None] *)
Definition has_non_null (k : string) (d : payload) : bool :=
  match d !! k with
  | Some VNone => false
  | Some _ => true
  | None => false
  end.

(** [d[k]] *)
Definition getitem {V} (d : gmap string V) (k : string) : result V :=
  match d !! k with
  | Some v => Ok v
  | None => Raise (KeyError k)
  end.

(** [len(v)] *)
Definition py_len (v : value) : result nat :=
  match v with
  | VList l => Ok (length l)
  | VStr s => Ok (String.length s)
  | _ => Raise (TypeError "len")
  end.

Fixpoint chars (s : string) : list value :=
  match s with
  | EmptyString => []
  | String c s' => VStr (String c EmptyString) :: chars s'
  end.

(** [list(v)] *)
Definition py_list (v : value) : result (list value) :=
  match v with
  | VList l => Ok l
  | VStr s => Ok (chars s)
  | _ => Raise (TypeError "list")
  end.

(** [x + v] for a number [x]: a bool counts as 0 or 1. *)
Definition py_add (x : Q) (v : value) : result Q :=
  match v with
  | VNum q => Ok (x + q)
  | VBool b => Ok (x + (if b then 1 else 0))
  | _ => Raise (TypeError "+")
  end.

(** [logger.info(m)] *)
Definition log_info (m : log_msg) : Py unit := modify (record (LogInfo m)).

(** [sio_client.emit(event, data=d)], with the upstream session up: the
    message is handed over and the call returns. *)
Definition emit (event : string) (d : payload) : Py unit :=
  modify (record (Emit event d)).

(** [sio_server.save_session(sid, sess)] *)
Definition save_session (sid : string) (sess : session) : Py unit :=
  modify (λ s, set_sessions (<[sid := sess]> (sessions s)) s).

(** [sio_server.get_session(sid)]: the transport raises
    [KeyError('Session not found')] for a connection id it has no session
    for. *)
Definition get_session (sid : string) : Py session :=
  λ s, match sessions s !! sid with
       | Some sess => (s, Ok sess)
       | None => (s, Raise (KeyError "Session not found"))
       end.

(** [queue.put(entry)] *)
Definition queue_put (entry : string * payload) : Py unit :=
  modify (λ s, set_queue (queue s ++ [entry]) s).

(** ** helpers/common.py *)

(** [environ.get("HTTP_DEVICE_ID", None)] *)
Definition get_device_id (environ : gmap string string) : option string :=
  environ !! "HTTP_DEVICE_ID".

(** [x or sid]: the empty string is falsy, as is [None]. *)
Definition or_else (x : option string) (sid : string) : string :=
  match x with
  | Some EmptyString => sid
  | Some d => d
  | None => sid
  end.

(** ** Payloads that are not dictionaries *)

(** A payload as the transport hands it to [recv]: a JSON object, or any
    other JSON value. *)
Inductive message : Type :=
  | Dict (d : payload)
  | Plain (v : value).

(** [k in v] on a value that is not a dictionary: the substring test on
    a string, membership on a list, [TypeError] on anything else. *)
Definition py_in (k : string) (v : value) : result bool :=
  match v with
  | VStr s =>
      Ok (match String.index 0 k s with Some _ => true | None => false end)
  | VList l =>
      Ok (existsb (λ x, match x with
                        | VStr t => String.eqb t k
                        | _ => false
                        end) l)
  | _ => Raise (TypeError "in")
  end.

(** [k in v and v[k] is not None] on a value that is not a dictionary.
    When [k in v] holds the subscript [v[k]] with a string key raises
    [TypeError], so the test is false ([Ok tt]) or raises; it is never
    true. *)
Definition field_test_plain (k : string) (v : value) : result unit :=
  match py_in k v with
  | Ok true => Raise (TypeError "[]")
  | Ok false => Ok tt
  | Raise e => Raise e
  end.

(** ** EdgeNode.py *)

Module EdgeNode.

Section Node.

(** The wall clock: [clock n] is what the [n]-th call of [time.time()]
    returns.  Nothing is assumed about it. *)
Variable clock : nat → Q.

(** The inference step [predict_images(items, model)]: returns the
    processed batch or raises. *)
Variable predict_images : list value → result value.

(** [time.time()] *)
Definition time_time : Py Q :=
  λ s, (tick (record (Time (clock (ticks s))) s), Ok (clock (ticks s))).

Definition call_predict (items : list value) : Py value :=
  λ s, (record (Predict items) s, predict_images items).

(** [self.proctime += d] *)
Definition add_proctime (d : Q) : Py unit :=
  modify (λ s, set_proctime (proctime s + d) s).

(** [self.transtime += d] *)
Definition add_transtime (d : Q) : Py unit :=
  modify (λ s, set_transtime (transtime s + d) s).

(** [edge_node.transtime += v] for a value taken from a payload. *)
Definition add_transtime_value (v : value) : Py unit :=
  λ s, match py_add (transtime s) v with
       | Ok q => (set_transtime q s, Ok tt)
       | Raise e => (s, Raise e)
       end.

(** The two messages sent upstream for a batch. *)
Definition batch_message (out : value) : payload :=
  {[ "data" := out ]}.

Definition stats_message (tr pr : Q) : payload :=
  <[ "transtime" := VNum tr ]>
    (<[ "proctime" := VNum pr ]> ({[ "data" := VNone ]})).

(** [EdgeNode.process_iot_data(self, device_id, data)] *)
Definition process_iot_data (device_id : string) (data : value) : Py unit :=
  n ← lift (py_len data);
  log_info (MsgReceived device_id n);;
  start_time ← time_time;
  items ← lift (py_list data);
  out ← call_predict items;
  now ← time_time;
  add_proctime (now - start_time);;
  start_time ← time_time;
  emit "recv" (batch_message out);;
  now ← time_time;
  add_transtime (now - start_time);;
  s ← get;
  emit "recv" (stats_message (transtime s) (proctime s)).

(** [connect(sid, environ)] *)
Definition connect (sid : string) (environ : gmap string string) : Py unit :=
  let device_id := or_else (get_device_id environ) sid in
  save_session sid {[ "device_id" := device_id ]};;
  log_info (MsgConnected device_id sid).

(** [disconnect(sid)] *)
Definition disconnect (sid : string) : Py unit :=
  sess ← get_session sid;
  device_id ← lift (getitem sess "device_id");
  log_info (MsgDisconnected device_id).

(** [recv(sid, data)] *)
Definition recv (sid : string) (data : payload) : Py unit :=
  sess ← get_session sid;
  device_id ← lift (getitem sess "device_id");
  if has_non_null "acc_transtime" data then
    v ← lift (getitem data "acc_transtime");
    add_transtime_value v;;
    log_info (MsgAccTranstime device_id v)
  else
    device_id' ← lift (getitem sess "device_id");
    batch ← lift (getitem data "data");
    process_iot_data device_id' batch.

(** [recv(sid, data)] on a payload that is not a dictionary: after the
    session lookup, the test of [acc_transtime] is false or raises, and
    [data["data"]] raises [TypeError]. *)
Definition recv_plain (sid : string) (v : value) : Py unit :=
  sess ← get_session sid;
  device_id ← lift (getitem sess "device_id");
  lift (field_test_plain "acc_transtime" v);;
  device_id' ← lift (getitem sess "device_id");
  lift (Raise (TypeError "[]")).

(** [recv(sid, data)] on any payload. *)
Definition recv_json (sid : string) (m : message) : Py unit :=
  match m with
  | Dict d => recv sid d
  | Plain v => recv_plain sid v
  end.

End Node.

End EdgeNode.

(** ** trigger.py, [start_edge] *)

Module Trigger.

(** [connect(sid, environ)] *)
Definition connect (sid : string) (environ : gmap string string) : Py unit :=
  let device_id := or_else (get_device_id environ) sid in
  save_session sid {[ "device_id" := device_id ]};;
  log_info (MsgConnected device_id sid).

(** [disconnect(sid)] *)
Definition disconnect (sid : string) : Py unit :=
  sess ← get_session sid;
  device_id ← lift (getitem sess "device_id");
  log_info (MsgDisconnected device_id).

(** [recv(sid, data)]: the session lookup is commented out in the source
    and the device id is the literal ["iot-1"]. *)
Definition recv (sid : string) (data : payload) : Py unit :=
  let device_id := "iot-1" in
  if has_non_null "data" data then
    log_info (MsgReceivedFrom device_id);;
    queue_put (device_id, data)
  else if has_non_null "acc_transtime" data then
    v ← lift (getitem data "acc_transtime");
    EdgeNode.add_transtime_value v;;
    log_info (MsgAccTranstime device_id v)
  else
    mret tt.

(** [recv(sid, data)] on a payload that is not a dictionary: each of the
    two tests is false or raises, and when both are false the handler
    falls through. *)
Definition recv_plain (sid : string) (v : value) : Py unit :=
  lift (field_test_plain "data" v);;
  lift (field_test_plain "acc_transtime" v);;
  mret tt.

(** [recv(sid, data)] on any payload. *)
Definition recv_json (sid : string) (m : message) : Py unit :=
  match m with
  | Dict d => recv sid d
  | Plain v => recv_plain sid v
  end.

End Trigger.

(** ** Operations on a node, and what a reader of the trace can see *)

(** Every entry point that can touch the node state. *)
Inductive op : Type :=
  | OpConnect (sid : string) (environ : gmap string string)
  | OpDisconnect (sid : string)
  | OpRecv (sid : string) (data : payload)
  | OpProcess (device_id : string) (data : value)
  | OpQConnect (sid : string) (environ : gmap string string)
  | OpQDisconnect (sid : string)
  | OpQRecv (sid : string) (data : payload).

Definition run_op (clock : nat → Q) (predict_images : list value → result value)
    (o : op) : Py unit :=
  match o with
  | OpConnect sid environ => EdgeNode.connect sid environ
  | OpDisconnect sid => EdgeNode.disconnect sid
  | OpRecv sid data => EdgeNode.recv clock predict_images sid data
  | OpProcess device_id data =>
      EdgeNode.process_iot_data clock predict_images device_id data
  | OpQConnect sid environ => Trigger.connect sid environ
  | OpQDisconnect sid => Trigger.disconnect sid
  | OpQRecv sid data => Trigger.recv sid data
  end.

(** The part of the trace added between [s] and [s']. *)
Definition added (s s' : state) : list call :=
  drop (length (trace s)) (trace s').

Definition logs_error (c : call) : bool :=
  match c with
  | LogError _ => true
  | LogInfo (MsgError _) => true
  | _ => false
  end.

(** The transmission time reported in a payload, when it is a number, is
    not negative. *)
Definition reported_nonneg (data : payload) : Prop :=
  match data !! "acc_transtime" with
  | Some (VNum q) => 0 <= q
  | _ => True
  end.

(** The two intervals measured by [process_iot_data] started from [s] are
    not negative: the clock did not step back inside either. *)
Definition elapsed_nonneg (clock : nat → Q) (s : state) : Prop :=
  clock (ticks s) <= clock (S (ticks s)) ∧
  clock (S (S (ticks s))) <= clock (S (S (S (ticks s)))).

Definition deltas_nonneg (clock : nat → Q) (s : state) (o : op) : Prop :=
  match o with
  | OpRecv _ data => reported_nonneg data ∧ elapsed_nonneg clock s
  | OpQRecv _ data => reported_nonneg data
  | OpProcess _ _ => elapsed_nonneg clock s
  | _ => True
  end.

(** ** Sentences of the specification, as it words them

    Each is stated here as a predicate on one run of a handler, to be
    compared with what the handler does. *)

(** "The error is logged": a failing inference step leaves an error entry
    in the log. *)
Definition failure_logged (clock : nat → Q)
    (predict_images : list value → result value)
    (device_id : string) (data : value) (s : state) : Prop :=
  ∃ c : call,
    c ∈ added s (fst (EdgeNode.process_iot_data clock predict_images
                        device_id data s)) ∧
    logs_error c = true.

(** "The message is logged and dropped": the handler leaves a log entry
    for the message. *)
Definition message_logged (handler : string → payload → Py unit)
    (sid : string) (data : payload) (s : state) : Prop :=
  ∃ c : call, c ∈ added s (fst (handler sid data s)) ∧ is_log c = true.

(** "Enqueues the pair of that device id and the batch items": the queue
    grows by one entry that carries the device id of the session. *)
Definition enqueued_for (handler : string → payload → Py unit)
    (sid : string) (data : payload) (s : state) (device_id : string) : Prop :=
  ∃ entry : string * payload,
    queue (fst (handler sid data s)) = queue s ++ [entry] ∧
    entry.1 = device_id.

(** "Adds that value directly to the transmission-time counter ... without
    enqueueing anything". *)
Definition report_added (handler : string → payload → Py unit)
    (sid : string) (data : payload) (s : state) (x : Q) : Prop :=
  transtime (fst (handler sid data s)) == transtime s + x ∧
  queue (fst (handler sid data s)) = queue s.

(** A payload that "matches neither known shape": a dictionary without a
    non-null [data] field and without a non-null report, or a payload
    that is not a dictionary at all. *)
Definition neither_shape (m : message) : Prop :=
  match m with
  | Dict d =>
      has_non_null "data" d = false ∧ has_non_null "acc_transtime" d = false
  | Plain _ => True
  end.

(** The exceptions a handler raises on a payload it cannot use. *)
Definition lookup_or_type_error (e : exn) : Prop :=
  match e with
  | KeyError _ | TypeError _ => True
  | Failure _ => False
  end.

(** "Treats it solely as a transmission report": the handler returns,
    having called no inference step and left the processing-time counter
    alone. *)
Definition treated_as_report (handler : string → payload → Py unit)
    (sid : string) (data : payload) (s : state) : Prop :=
  snd (handler sid data s) = Ok tt ∧
  proctime (fst (handler sid data s)) = proctime s ∧
  filter is_predict (added s (fst (handler sid data s))) = [].

(** "Both ledger fields are monotonically non-decreasing" across one
    operation. *)
Definition counters_monotone (clock : nat → Q)
    (predict_images : list value → result value) (o : op) (s : state) : Prop :=
  transtime s <= transtime (fst (run_op clock predict_images o s)) ∧
  proctime s <= proctime (fst (run_op clock predict_images o s)).

(** "The device id is taken from the designated connection header when
    present": whatever the header holds is what the session stores. *)
Definition header_stored (handler : string → gmap string string → Py unit)
    (sid : string) (environ : gmap string string) (s : state) : Prop :=
  ∀ h : string,
    environ !! "HTTP_DEVICE_ID" = Some h →
    sessions (fst (handler sid environ s)) !! sid =
      Some {[ "device_id" := h ]}.

(** ** A concrete world for examples *)

Module Sample.

(** A clock that advances by half a second per reading. *)
Definition clock (n : nat) : Q := inject_Z (Z.of_nat n) / 2.

(** A clock that steps back by a second per reading. *)
Definition clock_back (n : nat) : Q := - inject_Z (Z.of_nat n).

(** An inference step that labels every item and fails on the empty
    batch. *)
Definition predict_images (items : list value) : result value :=
  match items with
  | [] => Raise (Failure "empty batch")
  | _ => Ok (VList ((λ _, VStr "cat") <$> items))
  end.

Definition batch : value := VList [VStr "a.jpg"; VStr "b.jpg"].

Definition data_msg : payload := {[ "data" := batch ]}.
Definition report_msg : payload := {[ "acc_transtime" := VNum (5 # 2) ]}.
Definition negative_report_msg : payload := {[ "acc_transtime" := VNum (-1) ]}.
Definition both_msg : payload :=
  <[ "acc_transtime" := VNum (5 # 2) ]> data_msg.
Definition neither_msg : payload := {[ "algo" := VStr "yolo" ]}.
Definition text_report_both_msg : payload :=
  <[ "acc_transtime" := VStr "fast" ]> data_msg.

(** The node after a device announcing itself as ["d1"] connected. *)
Definition connected : state :=
  fst (EdgeNode.connect "sid-1" {[ "HTTP_DEVICE_ID" := "d1" ]} init).

End Sample.

(** ** Runs of several operations *)

(** The node serving a sequence of operations, each from the state the
    previous one left, whether it returned or raised. *)
Definition run_ops (clock : nat → Q)
    (predict_images : list value → result value)
    (ops : list op) (s : state) : state :=
  foldl (λ s o, fst (run_op clock predict_images o s)) s ops.

Definition is_connect (o : op) : bool :=
  match o with
  | OpConnect _ _ | OpQConnect _ _ => true
  | _ => false
  end.

(** The queue entry an operation is the source of, if any. *)
Definition enqueued_entry (o : op) : option (string * payload) :=
  match o with
  | OpQRecv _ data =>
      if has_non_null "data" data then Some ("iot-1", data) else None
  | _ => None
  end.

(** A transmission-time report of [x] seconds, as a payload. *)
Definition report_of (x : Q) : payload := {[ "acc_transtime" := VNum x ]}.

(** The shapes the result of operation [o] started in [s] can take. *)
Inductive outcome (clock : nat → Q)
    (predict_images : list value → result value) (o : op) (s : state) :
    state * result unit → Prop :=
  | outcome_raised (e : exn) :
      outcome clock predict_images o s (s, Raise e)
  | outcome_ignored :
      outcome clock predict_images o s (s, Ok tt)
  | outcome_connected (sid device_id : string) :
      is_connect o = true →
      outcome clock predict_images o s
        ({| transtime := transtime s; proctime := proctime s;
            sessions := <[sid := {[ "device_id" := device_id ]}]> (sessions s);
            queue := queue s;
            trace := trace s ++ [ LogInfo (MsgConnected device_id sid) ];
            ticks := ticks s |}, Ok tt)
  | outcome_disconnected (device_id : string) :
      outcome clock predict_images o s
        ({| transtime := transtime s; proctime := proctime s;
            sessions := sessions s; queue := queue s;
            trace := trace s ++ [ LogInfo (MsgDisconnected device_id) ];
            ticks := ticks s |}, Ok tt)
  | outcome_reported (device_id : string) (v : value) (q : Q) :
      py_add (transtime s) v = Ok q →
      outcome clock predict_images o s
        ({| transtime := q; proctime := proctime s;
            sessions := sessions s; queue := queue s;
            trace := trace s ++
              [ Store Transtime q; LogInfo (MsgAccTranstime device_id v) ];
            ticks := ticks s |}, Ok tt)
  | outcome_enqueued (device_id : string) (data : payload) :
      enqueued_entry o = Some (device_id, data) →
      outcome clock predict_images o s
        ({| transtime := transtime s; proctime := proctime s;
            sessions := sessions s;
            queue := queue s ++ [(device_id, data)];
            trace := trace s ++ [ LogInfo (MsgReceivedFrom device_id) ];
            ticks := ticks s |}, Ok tt)
  | outcome_processed (device_id : string) (n : nat) (items : list value)
        (out : value) :
      predict_images items = Ok out →
      let t0 := clock (ticks s) in
      let t1 := clock (S (ticks s)) in
      let t2 := clock (S (S (ticks s))) in
      let t3 := clock (S (S (S (ticks s)))) in
      let pr := proctime s + (t1 - t0) in
      let tr := transtime s + (t3 - t2) in
      outcome clock predict_images o s
        ({| transtime := tr; proctime := pr;
            sessions := sessions s; queue := queue s;
            trace := trace s ++
              [ LogInfo (MsgReceived device_id n);
                Time t0; Predict items; Time t1; Store Proctime pr;
                Time t2; Emit "recv" (EdgeNode.batch_message out); Time t3;
                Store Transtime tr;
                Emit "recv" (EdgeNode.stats_message tr pr) ];
            ticks := S (S (S (S (ticks s)))) |}, Ok tt)
  | outcome_failed (device_id : string) (n : nat) (items : list value)
        (e : exn) :
      outcome clock predict_images o s
        ({| transtime := transtime s; proctime := proctime s;
            sessions := sessions s; queue := queue s;
            trace := trace s ++
              [ LogInfo (MsgReceived device_id n);
                Time (clock (ticks s)); Predict items ];
            ticks := S (ticks s) |}, Raise e).

(** ** helpers/common.py: partitioning *)

Local Close Scope Q_scope.

Module Common.

Inductive error : Type := ZeroDivisionError | IndexError.

(** [s.endswith(suffix)] *)
Definition endswith (s suffix : string) : bool :=
  bool_decide (String.list_ascii_of_string suffix
                 `suffix_of` String.list_ascii_of_string s).

(** [os.path.join(a, b)] on a POSIX system. *)
Definition path_join (a b : string) : string :=
  if String.prefix "/" b then b
  else if bool_decide (a = "") || endswith a "/" then a +:+ b
  else a +:+ "/" +:+ b.

(** [parts[k]]: Python counts a negative index from the end and raises
    [IndexError] outside the list. *)
Definition py_index {A} (parts : list A) (k : Z) : error + nat :=
  let len := Z.of_nat (length parts) in
  let k' := if (k <? 0)%Z then (len + k)%Z else k in
  if ((0 <=? k') && (k' <? len))%Z then inr (Z.to_nat k') else inl IndexError.

(** One round of the loop: [parts[i % num_parts].append(f(x))]. *)
Definition put {A B} (f : A → B) (num_parts : Z) (i : nat) (x : A)
    (parts : list (list B)) : error + list (list B) :=
  if (num_parts =? 0)%Z then inl ZeroDivisionError
  else
    match py_index parts (Z.of_nat i mod num_parts) with
    | inr k => inr (alter (λ p, p ++ [f x]) k parts)
    | inl e => inl e
    end.

(** [for i, x in enumerate(items): parts[i % num_parts].append(f(x))],
    entered at index [i]. *)
Fixpoint distribute {A B} (f : A → B) (num_parts : Z) (i : nat)
    (items : list A) (parts : list (list B)) : error + list (list B) :=
  match items with
  | [] => inr parts
  | x :: rest =>
      match put f num_parts i x parts with
      | inr parts' => distribute f num_parts (S i) rest parts'
      | inl e => inl e
      end
  end.

(** [[[] for _ in range(num_parts)]] *)
Definition empty_parts {B} (num_parts : Z) : list (list B) :=
  replicate (Z.to_nat num_parts) [].

(** [partition_images(dir, num_parts)], given what [os.listdir(dir)]
    returns. *)
Definition partition_images (listing : list string) (dir : string)
    (num_parts : Z) : error + list (list string) :=
  let img_paths :=
    path_join dir <$> filter (λ img, endswith img ".jpg" = true) listing in
  distribute id num_parts 0 img_paths (empty_parts num_parts).

(** [l * n] on lists. *)
Definition list_mul {A} (l : list A) (n : nat) : list A :=
  concat (replicate n l).

(** [partition_texts(dir, num_parts)], given what [os.listdir(dir)]
    returns. *)
Definition partition_texts (listing : list string) (dir : string)
    (num_parts : Z) : error + list (list string) :=
  let text_files :=
    list_mul (filter (λ f, endswith f ".txt" = true) listing) 300 in
  distribute (path_join dir) num_parts 0 text_files (empty_parts num_parts).

(** [partition_text(filename, num_parts)], given the lines that
    [f.readlines()] returns. *)
Definition partition_text (reviews : list string) (num_parts : Z) :
    error + list (list string) :=
  distribute id num_parts 0 reviews (empty_parts num_parts).

(** The state of the parts after the first [m] items went through the
    loop with [n] parts: part [k] holds the items at indices [k], [k + n],
    [k + 2n], ... below [m], in that order. *)
Definition laid_out {A B} (f : A → B) (n : nat) (items : list A) (m : nat)
    (parts : list (list B)) : Prop :=
  length parts = n ∧
  ∀ (k : nat) (p : list B), parts !! k = Some p →
    length p = m / n + (if decide (k < m mod n) then 1 else 0) ∧
    ∀ j : nat, j < length p → p !! j = f <$> items !! (j * n + k).

End Common.

(** ** trigger.py, [start_iot] *)

Module StartIot.

(** The exception classes that matter to the two [except] clauses. *)
Inductive exc_class : Type :=
  | ValueError
  | KeyboardInterrupt
  | SystemExit
  | TypeError
  | KeyError
  | UnboundLocalError
  | OtherException (name : string)       (* any other subclass of Exception *)
  | OtherBaseException (name : string).  (* any other BaseException *)

Record exception : Type := mkExc { cls : exc_class; arg : string }.

(** Caught by [except (ValueError, KeyboardInterrupt, SystemExit)]. *)
Definition caught_first (c : exc_class) : bool :=
  match c with
  | ValueError | KeyboardInterrupt | SystemExit => true
  | _ => false
  end.

(** Caught by [except Exception]. *)
Definition is_exception (c : exc_class) : bool :=
  match c with
  | KeyboardInterrupt | SystemExit | OtherBaseException _ => false
  | _ => true
  end.

(** Calls on the client class, with the client named by its device id. *)
Inductive client_call : Type :=
  | New (device_id : string) (edge_address : option string)
      (data_dir algo : string) (iterations : Z)
  | Start (device_id : string)
  | Join (device_id : string)
  | Stop (device_id : string).

Inductive event : Type :=
  | Call (c : client_call)
  | PrintError (e : exception)        (* print(f"An error occurred: {e}") *)
  | PrintUnexpected (e : exception).  (* print(f"An unexpected error occurred: {e}") *)

(** What was done so far, and the local variable [iot_clients], which is
    unbound until its assignment. *)
Record frame : Type := mkFrame {
  events : list event;
  iot_clients : option (list string)
}.

Definition M (A : Type) : Type := frame → frame * (exception + A).

Definition ret {A} (a : A) : M A := λ s, (s, inr a).
Definition bind {A B} (m : M A) (k : A → M B) : M B :=
  λ s, match m s with
       | (s', inr a) => k a s'
       | (s', inl e) => (s', inl e)
       end.
Definition raise {A} (e : exception) : M A := λ s, (s, inl e).
Definition emit (ev : event) : M unit :=
  λ s, ({| events := events s ++ [ev]; iot_clients := iot_clients s |}, inr tt).
Definition set_clients (l : list string) : M unit :=
  λ s, ({| events := events s; iot_clients := Some l |}, inr tt).

#[global] Instance M_ret : MRet M := @ret.
#[global] Instance M_bind : MBind M := λ A B k m, bind m k.

Section World.

(** [DATA_CONFIG]: algorithm code to its settings. *)
Variable DATA_CONFIG : gmap string (gmap string string).
(** [os.getenv] *)
Variable getenv : string → option string.
(** [int(s)] on a string: the integer, or nothing when it raises
    [ValueError]. *)
Variable parse_int : string → option Z.
(** The exception a call on the client class raises, if it does. *)
Variable fails : client_call → option exception.

(** A call on the client class: attempted, then returns or raises. *)
Definition call (c : client_call) : M unit :=
  emit (Call c);;
  match fails c return M unit with Some e => raise e | None => mret tt end.

(** [int(os.getenv("NUM_EDGE_NODES"))] *)
Definition num_edge_nodes : M Z :=
  match getenv "NUM_EDGE_NODES" return M Z with
  | None => raise (mkExc TypeError "int() argument")
  | Some v =>
      match parse_int v return M Z with
      | Some n => mret n
      | None => raise (mkExc ValueError "invalid literal for int()")
      end
  end.

(** [[os.getenv(f"EDGE_{i+1}_ADDRESS") for i in range(n)]] *)
Definition edge_node_addresses (n : Z) : list (option string) :=
  (λ i, getenv ("EDGE_" +:+ pretty (S i) +:+ "_ADDRESS")) <$>
    seq 0 (Z.to_nat n).

(** [f"{device_id}-t{i+1}"] *)
Definition client_id (device_id : string) (i : nat) : string :=
  device_id +:+ "-t" +:+ pretty (S i).

(** [iot_clients.append(c)] *)
Definition append_client (c : string) : M unit :=
  λ s, match iot_clients s with
       | Some l => ({| events := events s; iot_clients := Some (l ++ [c]) |}, inr tt)
       | None => (s, inl (mkExc UnboundLocalError "iot_clients"))
       end.

(** The first loop, entered at index [i]. *)
Fixpoint create_loop (device_id : string) (algo : gmap string string)
    (algo_code : string) (iterations : Z) (i : nat)
    (addresses : list (option string)) : M unit :=
  match addresses with
  | [] => mret tt
  | edge_address :: rest =>
      let c := client_id device_id i in
      data_dir ← match algo !! "data_dir" return M string with
                 | Some d => mret d
                 | None => raise (mkExc KeyError "data_dir")
                 end;
      call (New c edge_address data_dir algo_code iterations);;
      append_client c;;
      call (Start c);;
      create_loop device_id algo algo_code iterations (S i) rest
  end.

(** [for iot_client in clients: iot_client.join()] *)
Fixpoint join_loop (clients : list string) : M unit :=
  match clients with
  | [] => mret tt
  | c :: rest => call (Join c);; join_loop rest
  end.

(** [for iot_client in clients: iot_client.stop()] *)
Fixpoint stop_loop (clients : list string) : M unit :=
  match clients with
  | [] => mret tt
  | c :: rest => call (Stop c);; stop_loop rest
  end.

(** A loop over the local variable [iot_clients]. *)
Definition for_clients (body : list string → M unit) : M unit :=
  λ s, match iot_clients s with
       | Some l => body l s
       | None => (s, inl (mkExc UnboundLocalError "iot_clients"))
       end.

(** The [try] block. *)
Definition try_block (device_id algo_code : string) (iterations : Z) : M unit :=
  match DATA_CONFIG !! algo_code return M unit with
  | None => raise (mkExc ValueError ("Invalid algorithm code: " +:+ algo_code))
  | Some algo =>
      n ← num_edge_nodes;
      set_clients [];;
      create_loop device_id algo algo_code iterations 0 (edge_node_addresses n);;
      for_clients join_loop
  end.

(** The two [except] clauses. *)
Definition except (e : exception) : M unit :=
  if caught_first (cls e) then emit (PrintError e)
  else if is_exception (cls e) then emit (PrintUnexpected e)
  else raise e.

(** The [finally] block. *)
Definition finally : M unit := for_clients stop_loop.

(** [start_iot(device_id, algo_code, iterations)]: an exception raised in
    the [finally] block replaces whatever the rest left. *)
Definition start_iot (device_id algo_code : string) (iterations : Z) :
    list event * (exception + unit) :=
  let '(s1, r1) := try_block device_id algo_code iterations
                     {| events := []; iot_clients := None |} in
  let '(s2, r2) := match r1 with
                   | inl e => except e s1
                   | inr _ => (s1, inr tt)
                   end in
  let '(s3, r3) := finally s2 in
  (events s3, match r3 with inl e => inl e | inr _ => r2 end).

End World.

(** The calls of the first loop when every call returns. *)
Fixpoint creation_calls (device_id data_dir algo_code : string)
    (iterations : Z) (i : nat) (addresses : list (option string)) :
    list event :=
  match addresses with
  | [] => []
  | edge_address :: rest =>
      Call (New (client_id device_id i) edge_address data_dir algo_code
              iterations)
      :: Call (Start (client_id device_id i))
      :: creation_calls device_id data_dir algo_code iterations (S i) rest
  end.

(** The clients whose construction returned, in the order of the calls. *)
Definition constructed (fails : client_call → option exception)
    (tr : list event) : list string :=
  omap (λ ev, match ev with
              | Call (New c a d g n) =>
                  match fails (New c a d g n) with
                  | None => Some c
                  | Some _ => None
                  end
              | _ => None
              end) tr.

(** The clients on which [stop] was called, in the order of the calls. *)
Definition stopped (tr : list event) : list string :=
  omap (λ ev, match ev with Call (Stop c) => Some c | _ => None end) tr.

(** The exception the [finally] block raises on the unassigned variable. *)
Definition unbound : exception := mkExc UnboundLocalError "iot_clients".

(** The frame [start_iot] starts from. *)
Definition fresh : frame := {| events := []; iot_clients := None |}.

(** What a run of one of the loops adds to the frame. *)
Definition extends (s s' : frame) (evs : list event) (new : list string) : Prop :=
  events s' = events s ++ evs ∧
  ∃ l : list string,
    iot_clients s = Some l ∧ iot_clients s' = Some (l ++ new).

End StartIot.

(** A concrete world for the examples of [start_iot]. *)

Module SampleIot.

Definition DATA_CONFIG : gmap string (gmap string string) :=
  {[ "yolo" := {[ "data_dir" := "data/coco" ]} ]}.

Definition environment : gmap string string :=
  {[ "NUM_EDGE_NODES" := "2";
     "EDGE_1_ADDRESS" := "http://edge-1:10000";
     "EDGE_2_ADDRESS" := "http://edge-2:10000" ]}.

Definition getenv (k : string) : option string := environment !! k.

(** [int] on the one numeral the environment holds. *)
Definition parse_int (s : string) : option Z :=
  if String.eqb s "2" then Some 2%Z else None.

(** Every call returns. *)
Definition all_return (c : StartIot.client_call) : option StartIot.exception :=
  None.

(** Starting the second client fails. *)
Definition second_start_fails (c : StartIot.client_call) :
    option StartIot.exception :=
  match c with
  | StartIot.Start "iot-1-t2" =>
      Some (StartIot.mkExc (StartIot.OtherException "ConnectionError") "refused")
  | _ => None
  end.

End SampleIot.



Local Open Scope Q_scope.


(** * Properties *)

(** Unfolds the monadic structure of a handler down to state transformers. *)
Ltac py_unfold :=
  cbv [EdgeNode.recv EdgeNode.process_iot_data EdgeNode.connect
       EdgeNode.disconnect Trigger.recv Trigger.connect Trigger.disconnect
       EdgeNode.time_time EdgeNode.call_predict EdgeNode.add_proctime
       EdgeNode.add_transtime EdgeNode.add_transtime_value
       log_info emit save_session get_session queue_put
       mbind Py_bind bind mret Py_ret ret lift get modify].

Lemma state_ext (s1 s2 : state) :
  transtime s1 = transtime s2 → proctime s1 = proctime s2 →
  sessions s1 = sessions s2 → queue s1 = queue s2 →
  trace s1 = trace s2 → ticks s1 = ticks s2 → s1 = s2.
Proof. destruct s1, s2. cbn. by intros -> -> -> -> -> ->. Qed.

(** Closes a goal [(s1, r) = (s2, r)] between a run of state transformers
    and the record it amounts to, field by field. *)
Ltac py_state :=
  apply (f_equal2 pair); [|reflexivity];
  apply state_ext;
  cbn [record tick set_transtime set_proctime set_sessions set_queue
       transtime proctime sessions queue trace ticks];
  rewrite <- ?app_assoc; reflexivity.

Lemma added_app (s s' : state) (l : list call) :
  trace s' = trace s ++ l → added s s' = l.
Proof. unfold added. intros ->. by rewrite drop_app_length. Qed.

Lemma added_same (s : state) : added s s = [].
Proof. apply added_app. by rewrite app_nil_r. Qed.

Lemma Qle_plus_nonneg (x d : Q) : 0 <= d → x <= x + d.
Proof.
  intros H. rewrite <- (Qplus_0_r x) at 1. by apply Qplus_le_r.
Qed.

Lemma Qle_plus_elapsed (x t0 t1 : Q) : t0 <= t1 → x <= x + (t1 - t0).
Proof.
  intros H. apply Qle_plus_nonneg. by apply Qle_minus_iff in H.
Qed.

Section Processing.

Variable clock : nat → Q.
Variable predict_images : list value → result value.

Abbreviation process_iot_data :=
  (EdgeNode.process_iot_data clock predict_images).
Abbreviation recv := (EdgeNode.recv clock predict_images).

(** What [process_iot_data] does on a sequence the inference step
    accepts. *)
Lemma process_iot_data_ok (device_id : string) (data : value) (n : nat)
    (items : list value) (out : value) (s : state) :
  py_len data = Ok n →
  py_list data = Ok items →
  predict_images items = Ok out →
  let t0 := clock (ticks s) in
  let t1 := clock (S (ticks s)) in
  let t2 := clock (S (S (ticks s))) in
  let t3 := clock (S (S (S (ticks s)))) in
  let pr := proctime s + (t1 - t0) in
  let tr := transtime s + (t3 - t2) in
  process_iot_data device_id data s =
    ({| transtime := tr; proctime := pr;
        sessions := sessions s; queue := queue s;
        trace := trace s ++
          [ LogInfo (MsgReceived device_id n);
            Time t0; Predict items; Time t1; Store Proctime pr;
            Time t2; Emit "recv" (EdgeNode.batch_message out); Time t3;
            Store Transtime tr;
            Emit "recv" (EdgeNode.stats_message tr pr) ];
        ticks := S (S (S (S (ticks s)))) |}, Ok tt).
Proof.
  intros Hlen Hlist Hout. py_unfold. rewrite Hlen, Hlist. cbn.
  rewrite Hout. py_state.
Qed.

(** What [process_iot_data] does on a sequence the inference step
    rejects. *)
Lemma process_iot_data_raise (device_id : string) (data : value) (n : nat)
    (items : list value) (e : exn) (s : state) :
  py_len data = Ok n →
  py_list data = Ok items →
  predict_images items = Raise e →
  process_iot_data device_id data s =
    ({| transtime := transtime s; proctime := proctime s;
        sessions := sessions s; queue := queue s;
        trace := trace s ++
          [ LogInfo (MsgReceived device_id n);
            Time (clock (ticks s)); Predict items ];
        ticks := S (ticks s) |}, Raise e).
Proof.
  intros Hlen Hlist Hout. py_unfold. rewrite Hlen, Hlist. cbn.
  rewrite Hout. py_state.
Qed.

(** What [process_iot_data] does on a value that is not a sequence. *)
Lemma process_iot_data_not_seq (device_id : string) (data : value)
    (e : exn) (s : state) :
  py_len data = Raise e →
  process_iot_data device_id data s = (s, Raise e).
Proof. intros Hlen. py_unfold. by rewrite Hlen. Qed.

Lemma py_len_list (data : value) (n : nat) :
  py_len data = Ok n → ∃ items : list value, py_list data = Ok items.
Proof. destruct data; naive_solver. Qed.

(** Whatever the batch, [process_iot_data] leaves sessions and queue alone
    and moves each counter by nothing or by the interval it measured. *)
Lemma process_iot_data_frame (device_id : string) (data : value) (s : state) :
  let s' := fst (process_iot_data device_id data s) in
  sessions s' = sessions s ∧ queue s' = queue s ∧
  (proctime s' = proctime s ∨
   proctime s' = proctime s + (clock (S (ticks s)) - clock (ticks s))) ∧
  (transtime s' = transtime s ∨
   transtime s' =
     transtime s + (clock (S (S (S (ticks s)))) - clock (S (S (ticks s))))).
Proof.
  destruct (py_len data) as [n|e] eqn:Hlen.
  - destruct (py_len_list _ _ Hlen) as [items Hlist].
    destruct (predict_images items) as [out|e] eqn:Hout.
    + rewrite (process_iot_data_ok _ _ _ _ _ _ Hlen Hlist Hout). cbn. repeat split; auto.
    + rewrite (process_iot_data_raise _ _ _ _ _ _ Hlen Hlist Hout). cbn. repeat split; auto.
  - rewrite (process_iot_data_not_seq _ _ _ _ Hlen). cbn. repeat split; auto.
Qed.

(** C1.  On a batch the inference step accepts, [process_iot_data]
    performs, in this order: the inference call, bracketed by two clock
    readings whose difference is added to the processing-time counter;
    the emit of the message [{"data": out}] holding the processed batch,
    bracketed by two clock readings whose difference is added to the
    transmission-time counter; a second emit of a message with exactly
    the fields [transtime], [proctime] and [data], holding the two
    counters as they then stand and [None]. *)
Theorem process_iot_data_order (device_id : string) (items : list value)
    (out : value) (s : state) :
  predict_images items = Ok out →
  let t0 := clock (ticks s) in
  let t1 := clock (S (ticks s)) in
  let t2 := clock (S (S (ticks s))) in
  let t3 := clock (S (S (S (ticks s)))) in
  ∃ (s' : state) (batch_msg stats_msg : payload),
    process_iot_data device_id (VList items) s = (s', Ok tt) ∧
    proctime s' = proctime s + (t1 - t0) ∧
    transtime s' = transtime s + (t3 - t2) ∧
    added s s' =
      [ LogInfo (MsgReceived device_id (length items));
        Time t0; Predict items; Time t1; Store Proctime (proctime s');
        Time t2; Emit "recv" batch_msg; Time t3;
        Store Transtime (transtime s');
        Emit "recv" stats_msg ] ∧
    batch_msg = {[ "data" := out ]} ∧
    stats_msg !! "transtime" = Some (VNum (transtime s')) ∧
    stats_msg !! "proctime" = Some (VNum (proctime s')) ∧
    stats_msg !! "data" = Some VNone ∧
    dom stats_msg = ({[ "transtime"; "proctime"; "data" ]} : gset string).
Proof.
  intros Hout t0 t1 t2 t3.
  eexists _, (EdgeNode.batch_message out), (EdgeNode.stats_message _ _).
  split; [by apply (process_iot_data_ok _ _ (length items) items)|].
  cbn [proctime transtime].
  split; [done|]. split; [done|]. split; [by apply added_app|].
  split; [done|]. unfold EdgeNode.stats_message.
  split; [by rewrite lookup_insert_eq|].
  split; [by rewrite lookup_insert_ne, lookup_insert_eq|].
  split; [by rewrite !lookup_insert_ne, lookup_singleton_eq|].
  rewrite !dom_insert_L, dom_singleton_L. set_solver.
Qed.

(** C2, as the code has it.  When the inference step raises on a batch,
    [process_iot_data] raises the same exception to its caller; up to
    then it has logged the arrival of the batch, read the clock once and
    called the inference step, and nothing else: no error entry is
    logged, nothing is emitted, and counters, sessions and queue are
    as before.  A later batch that the inference step accepts is
    processed from the resulting state and forwarded with the usual two
    emits. *)
Theorem process_iot_data_failure (device_id : string) (items : list value)
    (e : exn) (s : state)
    (device_id2 : string) (items2 : list value) (out2 : value) :
  predict_images items = Raise e →
  predict_images items2 = Ok out2 →
  ∃ s' : state,
    process_iot_data device_id (VList items) s = (s', Raise e) ∧
    added s s' =
      [ LogInfo (MsgReceived device_id (length items));
        Time (clock (ticks s)); Predict items ] ∧
    filter is_emit (added s s') = [] ∧
    filter logs_error (added s s') = [] ∧
    transtime s' = transtime s ∧ proctime s' = proctime s ∧
    sessions s' = sessions s ∧ queue s' = queue s ∧
    ∃ s'' : state,
      process_iot_data device_id2 (VList items2) s' = (s'', Ok tt) ∧
      filter is_emit (added s' s'') =
        [ Emit "recv" (EdgeNode.batch_message out2);
          Emit "recv"
            (EdgeNode.stats_message (transtime s'') (proctime s'')) ].
Proof.
  intros He Hout2. eexists.
  split; [by apply (process_iot_data_raise _ _ (length items) items)|].
  assert (Hadd : ∀ (tr pr : Q) (ss : gmap string session) q (l : list call) n,
    added s {| transtime := tr; proctime := pr; sessions := ss; queue := q;
               trace := trace s ++ l; ticks := n |} = l)
    by (intros; by apply added_app).
  rewrite Hadd. cbn [transtime proctime sessions queue].
  repeat split.
  eexists. split.
  - by apply (process_iot_data_ok _ _ (length items2) items2).
  - erewrite added_app; [|reflexivity]. reflexivity.
Qed.

End Processing.

(** C1 at a concrete batch. *)
Lemma process_iot_data_order_witness :
  ∃ (s' : state) (batch_msg stats_msg : payload),
    EdgeNode.process_iot_data Sample.clock Sample.predict_images "d1"
      Sample.batch init = (s', Ok tt) ∧
    proctime s' = 0 + (Sample.clock 1 - Sample.clock 0) ∧
    transtime s' = 0 + (Sample.clock 3 - Sample.clock 2) ∧
    added init s' =
      [ LogInfo (MsgReceived "d1" 2);
        Time (Sample.clock 0); Predict [VStr "a.jpg"; VStr "b.jpg"];
        Time (Sample.clock 1); Store Proctime (proctime s');
        Time (Sample.clock 2); Emit "recv" batch_msg;
        Time (Sample.clock 3); Store Transtime (transtime s');
        Emit "recv" stats_msg ] ∧
    batch_msg = {[ "data" := VList [VStr "cat"; VStr "cat"] ]} ∧
    stats_msg !! "transtime" = Some (VNum (transtime s')) ∧
    stats_msg !! "proctime" = Some (VNum (proctime s')) ∧
    stats_msg !! "data" = Some VNone ∧
    dom stats_msg = ({[ "transtime"; "proctime"; "data" ]} : gset string).
Proof.
  apply (process_iot_data_order Sample.clock Sample.predict_images "d1"
           [VStr "a.jpg"; VStr "b.jpg"] (VList [VStr "cat"; VStr "cat"]) init).
  reflexivity.
Defined.

(** C2 as worded fails: the inference step raises on the empty batch and
    no error entry reaches the log. *)
Lemma failure_logged_counterexample :
  Sample.predict_images [] = Raise (Failure "empty batch") ∧
  ¬ failure_logged Sample.clock Sample.predict_images "d1" (VList []) init.
Proof.
  split; [reflexivity|].
  intros (c & Hin & Hc). vm_compute in Hin.
  repeat (apply elem_of_cons in Hin as [-> | Hin]; [discriminate Hc|]).
  by apply elem_of_nil in Hin.
Qed.

(** C2 as the code has it, at the empty batch. *)
Lemma process_iot_data_failure_witness :
  ∃ s' : state,
    EdgeNode.process_iot_data Sample.clock Sample.predict_images "d1"
      (VList []) init = (s', Raise (Failure "empty batch")) ∧
    added init s' =
      [ LogInfo (MsgReceived "d1" 0); Time (Sample.clock 0); Predict [] ] ∧
    filter is_emit (added init s') = [] ∧
    filter logs_error (added init s') = [] ∧
    transtime s' = 0 ∧ proctime s' = 0 ∧
    sessions s' = ∅ ∧ queue s' = [] ∧
    ∃ s'' : state,
      EdgeNode.process_iot_data Sample.clock Sample.predict_images
        "d2" Sample.batch s' = (s'', Ok tt) ∧
      filter is_emit (added s' s'') =
        [ Emit "recv" (EdgeNode.batch_message (VList [VStr "cat"; VStr "cat"]));
          Emit "recv"
            (EdgeNode.stats_message (transtime s'') (proctime s'')) ].
Proof.
  apply (process_iot_data_failure Sample.clock Sample.predict_images "d1"
           [] (Failure "empty batch") init
           "d2" [VStr "a.jpg"; VStr "b.jpg"] (VList [VStr "cat"; VStr "cat"]));
    reflexivity.
Defined.


(** ** The [recv] handlers, branch by branch *)

Section Handlers.

Variable clock : nat → Q.
Variable predict_images : list value → result value.

Abbreviation recv := (EdgeNode.recv clock predict_images).

Lemma has_non_null_num (k : string) (data : payload) (x : Q) :
  data !! k = Some (VNum x) → has_non_null k data = true.
Proof. unfold has_non_null. by intros ->. Qed.

Lemma has_non_null_false (k : string) (data : payload) :
  has_non_null k data = false → data !! k = None ∨ data !! k = Some VNone.
Proof.
  unfold has_non_null. destruct (data !! k) as [[]|]; naive_solver.
Qed.

(** No session for the connection: the lookup raises and nothing has
    happened yet. *)
Lemma recv_no_session (sid : string) (data : payload) (s : state) :
  sessions s !! sid = None →
  recv sid data s = (s, Raise (KeyError "Session not found")).
Proof. intros Hs. py_unfold. by rewrite Hs. Qed.

(** A numeric transmission-time report from a connected device. *)
Lemma recv_report (sid : string) (data : payload) (s : state)
    (sess : session) (device_id : string) (x : Q) :
  sessions s !! sid = Some sess →
  sess !! "device_id" = Some device_id →
  data !! "acc_transtime" = Some (VNum x) →
  recv sid data s =
    ({| transtime := transtime s + x; proctime := proctime s;
        sessions := sessions s; queue := queue s;
        trace := trace s ++
          [ Store Transtime (transtime s + x);
            LogInfo (MsgAccTranstime device_id (VNum x)) ];
        ticks := ticks s |}, Ok tt).
Proof.
  intros Hs Hd Hx. py_unfold.
  rewrite Hs. unfold getitem. rewrite Hd.
  rewrite (has_non_null_num _ _ _ Hx), Hx. cbn. py_state.
Qed.

(** A payload without a non-null report from a connected device goes to
    [process_iot_data] with the device id of the session. *)
Lemma recv_batch (sid : string) (data : payload) (s : state)
    (sess : session) (device_id : string) (batch : value) :
  sessions s !! sid = Some sess →
  sess !! "device_id" = Some device_id →
  has_non_null "acc_transtime" data = false →
  data !! "data" = Some batch →
  recv sid data s =
    EdgeNode.process_iot_data clock predict_images device_id batch s.
Proof.
  intros Hs Hd Hn Hb. unfold EdgeNode.recv.
  cbv [get_session mbind Py_bind bind lift].
  rewrite Hs. unfold getitem. by rewrite Hd, Hn, Hb.
Qed.

(** [process_iot_data] on [None]: [len] raises before anything is logged. *)
Lemma process_iot_data_none (device_id : string) (s : state) :
  EdgeNode.process_iot_data clock predict_images device_id VNone s =
    (s, Raise (TypeError "len")).
Proof. reflexivity. Qed.

(** A payload with neither field non-null: the handler raises and the
    state is as before. *)
Lemma recv_neither (sid : string) (data : payload) (s : state) :
  has_non_null "acc_transtime" data = false →
  has_non_null "data" data = false →
  ∃ e : exn, recv sid data s = (s, Raise e).
Proof.
  intros Hn Hd.
  destruct (sessions s !! sid) as [sess|] eqn:Hs;
    [|eexists; by apply recv_no_session].
  destruct (sess !! "device_id") as [device_id|] eqn:Hdev.
  - destruct (has_non_null_false _ _ Hd) as [Hb|Hb].
    + eexists. unfold EdgeNode.recv.
      cbv [get_session mbind Py_bind bind lift].
      rewrite Hs. unfold getitem. by rewrite Hdev, Hn, Hb.
    + eexists. erewrite recv_batch by done. apply process_iot_data_none.
  - eexists. unfold EdgeNode.recv.
    cbv [get_session mbind Py_bind bind lift].
    rewrite Hs. unfold getitem. by rewrite Hdev.
Qed.

(** The queue-based handler, data branch. *)
Lemma qrecv_data (sid : string) (data : payload) (s : state) :
  has_non_null "data" data = true →
  Trigger.recv sid data s =
    ({| transtime := transtime s; proctime := proctime s;
        sessions := sessions s;
        queue := queue s ++ [("iot-1", data)];
        trace := trace s ++ [ LogInfo (MsgReceivedFrom "iot-1") ];
        ticks := ticks s |}, Ok tt).
Proof. intros Hd. py_unfold. rewrite Hd. py_state. Qed.

(** The queue-based handler, report branch. *)
Lemma qrecv_report (sid : string) (data : payload) (s : state) (x : Q) :
  has_non_null "data" data = false →
  data !! "acc_transtime" = Some (VNum x) →
  Trigger.recv sid data s =
    ({| transtime := transtime s + x; proctime := proctime s;
        sessions := sessions s; queue := queue s;
        trace := trace s ++
          [ Store Transtime (transtime s + x);
            LogInfo (MsgAccTranstime "iot-1" (VNum x)) ];
        ticks := ticks s |}, Ok tt).
Proof.
  intros Hd Hx. py_unfold. rewrite Hd, (has_non_null_num _ _ _ Hx).
  unfold getitem. rewrite Hx. cbn. py_state.
Qed.

(** The queue-based handler, neither branch. *)
Lemma qrecv_neither (sid : string) (data : payload) (s : state) :
  has_non_null "data" data = false →
  has_non_null "acc_transtime" data = false →
  Trigger.recv sid data s = (s, Ok tt).
Proof. intros Hd Hn. py_unfold. by rewrite Hd, Hn. Qed.

(** The [recv] handler of EdgeNode.py, by cases on what it looks up. *)
Lemma recv_cases (sid : string) (data : payload) (s : state) :
  EdgeNode.recv clock predict_images sid data s =
    match sessions s !! sid with
    | None => (s, Raise (KeyError "Session not found"))
    | Some sess =>
        match sess !! "device_id" with
        | None => (s, Raise (KeyError "device_id"))
        | Some device_id =>
            if has_non_null "acc_transtime" data then
              (v ← lift (getitem data "acc_transtime");
               EdgeNode.add_transtime_value v;;
               log_info (MsgAccTranstime device_id v)) s
            else
              match data !! "data" with
              | None => (s, Raise (KeyError "data"))
              | Some batch =>
                  EdgeNode.process_iot_data clock predict_images
                    device_id batch s
              end
        end
    end.
Proof.
  unfold EdgeNode.recv. cbv [get_session mbind Py_bind bind lift].
  destruct (sessions s !! sid) as [sess|]; [|reflexivity].
  unfold getitem.
  destruct (sess !! "device_id") as [device_id|]; [|reflexivity].
  destruct (has_non_null "acc_transtime" data); [reflexivity|].
  destruct (data !! "data"); reflexivity.
Qed.

End Handlers.

(** ** Inbound messages *)

Section Inbound.

Variable clock : nat → Q.
Variable predict_images : list value → result value.

Abbreviation recv := (EdgeNode.recv clock predict_images).

(** C3, as the code has it.  For a message on a connection id that has no
    session, the [recv] handler of EdgeNode.py raises [KeyError] from the
    session lookup before doing anything else: the handler logs nothing,
    emits nothing, and the node state (counters, sessions, queue, trace)
    is exactly what it was, so later messages are handled as if this one
    had not arrived. *)
Theorem recv_unknown_session (sid : string) (data : payload) (s : state) :
  sessions s !! sid = None →
  recv sid data s = (s, Raise (KeyError "Session not found")) ∧
  added s (fst (recv sid data s)) = [] ∧
  transtime (fst (recv sid data s)) = transtime s ∧
  proctime (fst (recv sid data s)) = proctime s.
Proof.
  intros Hs. rewrite (recv_no_session _ _ _ _ _ Hs). cbn [fst].
  by rewrite added_same.
Qed.

(** C6, as the code has it.  On a payload with a non-null [data] field,
    the queue-based handler (trigger.py) logs and appends one entry to
    the queue whose second component is the whole payload, touching
    nothing else; the direct handler (EdgeNode.py), for a connected
    device and a payload without a non-null report, takes the device id
    from the session stored at connect time and passes it with the
    [data] field to [process_iot_data] in the same call, and enqueues
    nothing. *)
Theorem recv_data_branch :
  (∀ (sid : string) (data : payload) (s : state),
     has_non_null "data" data = true →
     ∃ device_id : string,
       Trigger.recv sid data s =
         ({| transtime := transtime s; proctime := proctime s;
             sessions := sessions s;
             queue := queue s ++ [(device_id, data)];
             trace := trace s ++ [ LogInfo (MsgReceivedFrom device_id) ];
             ticks := ticks s |}, Ok tt)) ∧
  (∀ (sid : string) (data : payload) (s : state) (sess : session)
     (device_id : string) (batch : value),
     sessions s !! sid = Some sess →
     sess !! "device_id" = Some device_id →
     has_non_null "acc_transtime" data = false →
     data !! "data" = Some batch →
     recv sid data s =
       EdgeNode.process_iot_data clock predict_images device_id batch s ∧
     queue (fst (recv sid data s)) = queue s).
Proof.
  split.
  - intros sid data s Hd. eexists. by apply qrecv_data.
  - intros sid data s sess device_id batch Hs Hdev Hn Hb.
    rewrite (recv_batch _ _ _ _ _ _ _ _ Hs Hdev Hn Hb). split; [done|].
    apply process_iot_data_frame.
Qed.

(** C7, as the code has it.  On a payload whose transmission-time report
    is a number [x]: the direct handler (EdgeNode.py), for a connected
    device, adds [x] to the transmission-time counter, logs and returns;
    the queue-based handler (trigger.py) does the same provided the
    payload has no non-null [data] field.  Neither enqueues anything nor
    calls the inference step nor emits. *)
Theorem recv_report_branch :
  (∀ (sid : string) (data : payload) (s : state) (sess : session)
     (device_id : string) (x : Q),
     sessions s !! sid = Some sess →
     sess !! "device_id" = Some device_id →
     data !! "acc_transtime" = Some (VNum x) →
     snd (recv sid data s) = Ok tt ∧
     report_added recv sid data s x ∧
     added s (fst (recv sid data s)) =
       [ Store Transtime (transtime s + x);
         LogInfo (MsgAccTranstime device_id (VNum x)) ]) ∧
  (∀ (sid : string) (data : payload) (s : state) (x : Q),
     has_non_null "data" data = false →
     data !! "acc_transtime" = Some (VNum x) →
     snd (Trigger.recv sid data s) = Ok tt ∧
     report_added Trigger.recv sid data s x ∧
     added s (fst (Trigger.recv sid data s)) =
       [ Store Transtime (transtime s + x);
         LogInfo (MsgAccTranstime "iot-1" (VNum x)) ]).
Proof.
  split.
  - intros sid data s sess device_id x Hs Hdev Hx. unfold report_added.
    rewrite (recv_report _ _ _ _ _ _ _ _ Hs Hdev Hx). cbn.
    repeat split. by apply added_app.
  - intros sid data s x Hd Hx. unfold report_added.
    rewrite (qrecv_report _ _ _ _ Hd Hx). cbn.
    repeat split. by apply added_app.
Qed.

(** A dictionary with neither field non-null: [recv] of EdgeNode.py
    raises from one of its lookups or from [len(None)]. *)
Lemma recv_neither_error (sid : string) (data : payload) (s : state) :
  has_non_null "acc_transtime" data = false →
  has_non_null "data" data = false →
  ∃ e : exn, recv sid data s = (s, Raise e) ∧ lookup_or_type_error e.
Proof.
  intros Hn Hd. rewrite recv_cases.
  destruct (sessions s !! sid) as [sess|]; [|by eexists].
  destruct (sess !! "device_id") as [device_id|]; [|by eexists].
  rewrite Hn.
  destruct (has_non_null_false predict_images _ _ Hd) as [->| ->];
    [by eexists|].
  rewrite process_iot_data_none. by eexists.
Qed.

(** A payload that is not a dictionary: [recv] of EdgeNode.py raises. *)
Lemma recv_plain_error (sid : string) (v : value) (s : state) :
  ∃ e : exn,
    EdgeNode.recv_plain sid v s = (s, Raise e) ∧ lookup_or_type_error e.
Proof.
  unfold EdgeNode.recv_plain.
  cbv [get_session mbind Py_bind bind lift getitem].
  destruct (sessions s !! sid) as [sess|]; [|by eexists].
  destruct (sess !! "device_id") as [device_id|]; [|by eexists].
  unfold field_test_plain. destruct (py_in "acc_transtime" v) as [[]|e] eqn:Hin;
    [by eexists|by eexists|].
  exists e. split; [done|].
  destruct v; try discriminate Hin; by injection Hin as <-.
Qed.

(** A payload that is not a dictionary: [recv] of trigger.py falls
    through or raises [TypeError]. *)
Lemma qrecv_plain (sid : string) (v : value) (s : state) :
  Trigger.recv_plain sid v s = (s, Ok tt) ∨
  ∃ what : string, Trigger.recv_plain sid v s = (s, Raise (TypeError what)).
Proof.
  unfold Trigger.recv_plain, field_test_plain.
  cbv [mbind Py_bind bind lift mret Py_ret ret].
  destruct (py_in "data" v) as [[]|e] eqn:Hd.
  - right. by eexists.
  - destruct (py_in "acc_transtime" v) as [[]|e] eqn:Hn.
    + right. by eexists.
    + by left.
    + right. destruct v; try discriminate Hn; injection Hn as <-; by eexists.
  - right. destruct v; try discriminate Hd; injection Hd as <-; by eexists.
Qed.

(** C8, as the code has it.  On a payload of neither shape (a dictionary
    with neither a non-null [data] field nor a non-null report, or a
    payload that is not a dictionary), the message is discarded with the
    node state unchanged and without any log entry.  The handler of
    trigger.py returns normally on a dictionary, and on any other payload
    returns normally or raises [TypeError]; the handler of EdgeNode.py
    raises [KeyError] or [TypeError]. *)
Theorem recv_neither_shape (sid : string) (m : message) (s : state) :
  neither_shape m →
  (∃ r : result unit,
     Trigger.recv_json sid m s = (s, r) ∧
     match m with
     | Dict _ => r = Ok tt
     | Plain _ => r = Ok tt ∨ ∃ what : string, r = Raise (TypeError what)
     end) ∧
  (∃ e : exn,
     EdgeNode.recv_json clock predict_images sid m s = (s, Raise e) ∧
     match e with
     | KeyError _ | TypeError _ => True
     | Failure _ => False
     end).
Proof.
  destruct m as [d|v]; cbn [neither_shape Trigger.recv_json EdgeNode.recv_json].
  - intros [Hd Hn]. split.
    + exists (Ok tt). split; [by apply qrecv_neither|done].
    + by apply recv_neither_error.
  - intros _. split.
    + destruct (qrecv_plain sid v s) as [->|[what ->]]; eexists; eauto.
    + apply recv_plain_error.
Qed.

(** C10, as the code has it.  On a payload that carries both a numeric
    transmission-time report and a [data] field, the [recv] handler of
    EdgeNode.py, for a device with a registered session, adds the report
    to the transmission-time counter,
    logs and returns: the inference step is not called, nothing is
    emitted, and the processing-time counter is unchanged. *)
Theorem recv_both_fields (sid : string) (data : payload) (s : state)
    (sess : session) (device_id : string) (x : Q) (batch : value) :
  sessions s !! sid = Some sess →
  sess !! "device_id" = Some device_id →
  data !! "acc_transtime" = Some (VNum x) →
  data !! "data" = Some batch →
  ∃ s' : state,
    recv sid data s = (s', Ok tt) ∧
    transtime s' = transtime s + x ∧
    proctime s' = proctime s ∧
    filter is_predict (added s s') = [] ∧
    filter is_emit (added s s') = [] ∧
    queue s' = queue s ∧ ticks s' = ticks s.
Proof.
  intros Hs Hdev Hx _. eexists. split; [by eapply recv_report|].
  cbn [transtime proctime queue ticks]. repeat split.
  - erewrite added_app; [|reflexivity]. reflexivity.
  - erewrite added_app; [|reflexivity]. reflexivity.
Qed.

End Inbound.

(** ** Connecting *)

Lemma or_else_spec (x : option string) (sid : string) :
  or_else x sid =
    match x with
    | Some h => if decide (h = "") then sid else h
    | None => sid
    end.
Proof. by destruct x as [[|]|]. Qed.

(** Both [connect] handlers are the same code. *)
Lemma connect_state (sid : string) (environ : gmap string string) (s : state) :
  let device_id := or_else (get_device_id environ) sid in
  EdgeNode.connect sid environ s =
    ({| transtime := transtime s; proctime := proctime s;
        sessions := <[sid := {[ "device_id" := device_id ]}]> (sessions s);
        queue := queue s;
        trace := trace s ++ [ LogInfo (MsgConnected device_id sid) ];
        ticks := ticks s |}, Ok tt).
Proof. intros device_id. py_unfold. py_state. Qed.

(** C9, as the code has it.  On a connect event, in both files, the
    device id of the session is the value of the [HTTP_DEVICE_ID] entry
    of the environment when that entry is present and not the empty
    string, and the connection id when it is absent or empty; the
    session [{"device_id": device_id}] is stored under the connection
    id, replacing any earlier one, other sessions are untouched, and the
    connection is logged. *)
Theorem connect_device_id (sid : string) (environ : gmap string string)
    (s : state) :
  let device_id :=
    match environ !! "HTTP_DEVICE_ID" with
    | Some h => if decide (h = "") then sid else h
    | None => sid
    end in
  ∃ s' : state,
    EdgeNode.connect sid environ s = (s', Ok tt) ∧
    Trigger.connect sid environ s = (s', Ok tt) ∧
    sessions s' !! sid = Some {[ "device_id" := device_id ]} ∧
    (∀ sid' : string, sid' ≠ sid → sessions s' !! sid' = sessions s !! sid') ∧
    added s s' = [ LogInfo (MsgConnected device_id sid) ] ∧
    transtime s' = transtime s ∧ proctime s' = proctime s ∧
    queue s' = queue s.
Proof.
  intros device_id.
  exists {| transtime := transtime s; proctime := proctime s;
            sessions := <[sid := {[ "device_id" := device_id ]}]> (sessions s);
            queue := queue s;
            trace := trace s ++ [ LogInfo (MsgConnected device_id sid) ];
            ticks := ticks s |}.
  pose proof (connect_state sid environ s) as Hc.
  rewrite or_else_spec in Hc. fold device_id in Hc.
  split; [exact Hc|]. split; [exact Hc|].
  cbn [sessions transtime proctime queue].
  split; [by rewrite lookup_insert_eq|].
  split; [by intros sid' Hne; rewrite lookup_insert_ne|].
  split; [|done]. by apply added_app.
Qed.

(** ** The two counters *)

Section Counters.

Variable clock : nat → Q.
Variable predict_images : list value → result value.

Lemma process_iot_data_monotone (device_id : string) (data : value)
    (s : state) :
  elapsed_nonneg clock s →
  counters_monotone clock predict_images (OpProcess device_id data) s.
Proof.
  intros [H01 H23]. unfold counters_monotone, run_op.
  destruct (process_iot_data_frame clock predict_images device_id data s)
    as (_ & _ & [Hp|Hp] & [Ht|Ht]);
    rewrite Hp, Ht; split;
    auto using Qle_refl, Qle_plus_elapsed.
Qed.

Lemma add_transtime_value_monotone (v : value) (s : state) :
  match v with VNum q => 0 <= q | _ => True end →
  transtime s <= transtime (fst (EdgeNode.add_transtime_value v s)) ∧
  proctime (fst (EdgeNode.add_transtime_value v s)) = proctime s.
Proof.
  intros Hv. unfold EdgeNode.add_transtime_value.
  destruct v as [|[]|q| |]; cbn; split;
    try reflexivity; try apply Qle_refl;
    apply Qle_plus_nonneg; try assumption; by vm_compute.
Qed.

(** A report branch: [+=] followed by a log entry. *)
Lemma report_monotone (device_id : string) (data : payload) (s : state) :
  reported_nonneg data →
  has_non_null "acc_transtime" data = true →
  let s' :=
    fst ((v ← lift (getitem data "acc_transtime");
          EdgeNode.add_transtime_value v;;
          log_info (MsgAccTranstime device_id v)) s) in
  transtime s <= transtime s' ∧ proctime s <= proctime s'.
Proof.
  unfold reported_nonneg, has_non_null, getitem.
  destruct (data !! "acc_transtime") as [v|]; [|done].
  intros Hv _. cbv [mbind Py_bind bind lift].
  pose proof (add_transtime_value_monotone v s) as Hm.
  destruct (EdgeNode.add_transtime_value v s) as [s1 [[]|e]];
    cbn in *; destruct v; (destruct Hm as [Ht Hp]; [done|]);
    rewrite ?Hp; auto using Qle_refl.
Qed.

Lemma unchanged_monotone (s : state) :
  transtime s <= transtime s ∧ proctime s <= proctime s.
Proof. split; apply Qle_refl. Qed.

(** C4, as the code has it.  Across every operation of the node (the
    three handlers of either file and [process_iot_data]), neither
    counter decreases, provided the transmission time reported in the
    payload is not negative and the clock does not step back inside
    either interval that [process_iot_data] measures.  The code only
    ever adds to a counter; it does not check what it adds. *)
Theorem counters_nondecreasing (o : op) (s : state) :
  deltas_nonneg clock s o →
  counters_monotone clock predict_images o s.
Proof.
  destruct o as [sid environ|sid|sid data|device_id data
                |sid environ|sid|sid data]; cbn [deltas_nonneg].
  - intros _. unfold counters_monotone, run_op.
    change (Trigger.connect sid environ) with (EdgeNode.connect sid environ).
    rewrite connect_state. cbn [fst transtime proctime].
    apply unchanged_monotone.
  - intros _. unfold counters_monotone, run_op. py_unfold.
    destruct (sessions s !! sid) as [sess|]; [|apply unchanged_monotone].
    unfold getitem.
    destruct (sess !! "device_id"); cbn [fst record transtime proctime];
      apply unchanged_monotone.
  - intros [Hrep Hel]. unfold counters_monotone, run_op.
    rewrite recv_cases.
    destruct (sessions s !! sid) as [sess|]; [|apply unchanged_monotone].
    destruct (sess !! "device_id") as [device_id|];
      [|apply unchanged_monotone].
    destruct (has_non_null "acc_transtime" data) eqn:Hn.
    + by apply report_monotone.
    + destruct (data !! "data") as [batch|]; [|apply unchanged_monotone].
      by apply process_iot_data_monotone.
  - apply process_iot_data_monotone.
  - intros _. unfold counters_monotone, run_op.
    change (Trigger.connect sid environ) with (EdgeNode.connect sid environ).
    rewrite connect_state. cbn [fst transtime proctime].
    apply unchanged_monotone.
  - intros _. unfold counters_monotone, run_op. py_unfold.
    destruct (sessions s !! sid) as [sess|]; [|apply unchanged_monotone].
    unfold getitem.
    destruct (sess !! "device_id"); cbn [fst record transtime proctime];
      apply unchanged_monotone.
  - intros Hrep. unfold counters_monotone, run_op.
    destruct (has_non_null "data" data) eqn:Hd.
    + rewrite (qrecv_data sid data s Hd). cbn [fst transtime proctime].
      apply unchanged_monotone.
    + destruct (has_non_null "acc_transtime" data) eqn:Hn.
      * unfold Trigger.recv. rewrite Hd, Hn. by apply report_monotone.
      * rewrite (qrecv_neither sid data s Hd Hn). apply unchanged_monotone.
Qed.

End Counters.

(** ** The statements above at concrete messages *)

(** C3 as worded fails: a report on a connection that never connected
    leaves no log entry. *)
Lemma unknown_session_logged_counterexample :
  sessions init !! "ghost" = None ∧
  ¬ message_logged (EdgeNode.recv Sample.clock Sample.predict_images)
      "ghost" Sample.report_msg init.
Proof.
  split; [reflexivity|].
  intros (c & Hin & _). vm_compute in Hin. by apply elem_of_nil in Hin.
Qed.

(** C3 as the code has it, at the same message. *)
Lemma recv_unknown_session_witness :
  EdgeNode.recv Sample.clock Sample.predict_images "ghost"
    Sample.report_msg init = (init, Raise (KeyError "Session not found")) ∧
  added init (fst (EdgeNode.recv Sample.clock Sample.predict_images "ghost"
                     Sample.report_msg init)) = [] ∧
  transtime (fst (EdgeNode.recv Sample.clock Sample.predict_images "ghost"
                    Sample.report_msg init)) = transtime init ∧
  proctime (fst (EdgeNode.recv Sample.clock Sample.predict_images "ghost"
                   Sample.report_msg init)) = proctime init.
Proof.
  apply (recv_unknown_session Sample.clock Sample.predict_images "ghost"
           Sample.report_msg init).
  reflexivity.
Defined.


(** C6 as worded fails: the device connected as ["d1"], and the entry the
    queue-based handler appends carries another id; the direct handler
    appends nothing. *)
Lemma enqueued_for_counterexample :
  sessions Sample.connected !! "sid-1" = Some {[ "device_id" := "d1" ]} ∧
  has_non_null "data" Sample.data_msg = true ∧
  ¬ enqueued_for Trigger.recv "sid-1" Sample.data_msg Sample.connected "d1" ∧
  ¬ enqueued_for (EdgeNode.recv Sample.clock Sample.predict_images)
      "sid-1" Sample.data_msg Sample.connected "d1".
Proof.
  split; [reflexivity|]. split; [reflexivity|]. split.
  - intros ([d pl] & Hq & Hd). cbn in Hd. subst d.
    vm_compute in Hq. discriminate Hq.
  - intros (entry & Hq & _). vm_compute in Hq. discriminate Hq.
Qed.

(** C6 as the code has it, at a batch from the device connected as
    ["d1"]. *)
Lemma recv_data_branch_witness :
  (∃ device_id : string,
     Trigger.recv "sid-1" Sample.data_msg Sample.connected =
       ({| transtime := transtime Sample.connected;
           proctime := proctime Sample.connected;
           sessions := sessions Sample.connected;
           queue := queue Sample.connected ++ [(device_id, Sample.data_msg)];
           trace := trace Sample.connected ++
                    [ LogInfo (MsgReceivedFrom device_id) ];
           ticks := ticks Sample.connected |}, Ok tt)) ∧
  (EdgeNode.recv Sample.clock Sample.predict_images "sid-1" Sample.data_msg
     Sample.connected =
   EdgeNode.process_iot_data Sample.clock Sample.predict_images "d1"
     Sample.batch Sample.connected ∧
   queue (fst (EdgeNode.recv Sample.clock Sample.predict_images "sid-1"
                 Sample.data_msg Sample.connected)) = queue Sample.connected).
Proof.
  split.
  - apply (proj1 (recv_data_branch Sample.clock Sample.predict_images)
             "sid-1" Sample.data_msg Sample.connected).
    reflexivity.
  - apply (proj2 (recv_data_branch Sample.clock Sample.predict_images)
             "sid-1" Sample.data_msg Sample.connected
             {[ "device_id" := "d1" ]} "d1" Sample.batch);
      reflexivity.
Defined.

(** C7 as worded fails: on a payload with both fields the queue-based
    handler enqueues the payload and leaves the counter alone. *)
Lemma report_added_counterexample :
  Sample.both_msg !! "acc_transtime" = Some (VNum (5 # 2)) ∧
  transtime (fst (Trigger.recv "sid-1" Sample.both_msg Sample.connected)) =
    transtime Sample.connected ∧
  queue (fst (Trigger.recv "sid-1" Sample.both_msg Sample.connected)) =
    [("iot-1", Sample.both_msg)] ∧
  ¬ report_added Trigger.recv "sid-1" Sample.both_msg Sample.connected (5 # 2).
Proof.
  split; [reflexivity|]. split; [reflexivity|]. split; [reflexivity|].
  intros [Ht Hq]. vm_compute in Ht. discriminate Ht.
Qed.

(** C7 as the code has it, at a report of 2.5 seconds. *)
Lemma recv_report_branch_witness :
  (snd (EdgeNode.recv Sample.clock Sample.predict_images "sid-1"
          Sample.report_msg Sample.connected) = Ok tt ∧
   report_added (EdgeNode.recv Sample.clock Sample.predict_images)
     "sid-1" Sample.report_msg Sample.connected (5 # 2) ∧
   added Sample.connected
     (fst (EdgeNode.recv Sample.clock Sample.predict_images "sid-1"
             Sample.report_msg Sample.connected)) =
     [ Store Transtime (transtime Sample.connected + (5 # 2));
       LogInfo (MsgAccTranstime "d1" (VNum (5 # 2))) ]) ∧
  (snd (Trigger.recv "sid-1" Sample.report_msg Sample.connected) = Ok tt ∧
   report_added Trigger.recv "sid-1" Sample.report_msg Sample.connected (5 # 2) ∧
   added Sample.connected
     (fst (Trigger.recv "sid-1" Sample.report_msg Sample.connected)) =
     [ Store Transtime (transtime Sample.connected + (5 # 2));
       LogInfo (MsgAccTranstime "iot-1" (VNum (5 # 2))) ]).
Proof.
  split.
  - apply (proj1 (recv_report_branch Sample.clock Sample.predict_images)
             "sid-1" Sample.report_msg Sample.connected
             {[ "device_id" := "d1" ]} "d1" (5 # 2));
      reflexivity.
  - apply (proj2 (recv_report_branch Sample.clock Sample.predict_images)
             "sid-1" Sample.report_msg Sample.connected (5 # 2));
      reflexivity.
Defined.

(** C8 as worded fails: a payload of neither shape leaves no log entry,
    in either handler. *)
Lemma neither_shape_logged_counterexample :
  has_non_null "data" Sample.neither_msg = false ∧
  has_non_null "acc_transtime" Sample.neither_msg = false ∧
  ¬ message_logged Trigger.recv "sid-1" Sample.neither_msg Sample.connected ∧
  ¬ message_logged (EdgeNode.recv Sample.clock Sample.predict_images)
      "sid-1" Sample.neither_msg Sample.connected.
Proof.
  split; [reflexivity|]. split; [reflexivity|]. split.
  - intros (c & Hin & _). vm_compute in Hin. by apply elem_of_nil in Hin.
  - intros (c & Hin & _). vm_compute in Hin. by apply elem_of_nil in Hin.
Qed.

(** C8 as the code has it, at the same payload and at the payload [5]. *)
Lemma recv_neither_shape_witness :
  ((∃ r : result unit,
      Trigger.recv_json "sid-1" (Dict Sample.neither_msg) Sample.connected =
        (Sample.connected, r) ∧
      r = Ok tt) ∧
   (∃ e : exn,
      EdgeNode.recv_json Sample.clock Sample.predict_images "sid-1"
        (Dict Sample.neither_msg) Sample.connected =
        (Sample.connected, Raise e) ∧
      match e with
      | KeyError _ | TypeError _ => True
      | Failure _ => False
      end)) ∧
  ((∃ r : result unit,
      Trigger.recv_json "sid-1" (Plain (VNum 5)) Sample.connected =
        (Sample.connected, r) ∧
      (r = Ok tt ∨ ∃ what : string, r = Raise (TypeError what))) ∧
   (∃ e : exn,
      EdgeNode.recv_json Sample.clock Sample.predict_images "sid-1"
        (Plain (VNum 5)) Sample.connected =
        (Sample.connected, Raise e) ∧
      match e with
      | KeyError _ | TypeError _ => True
      | Failure _ => False
      end)).
Proof.
  split.
  - apply (recv_neither_shape Sample.clock Sample.predict_images "sid-1"
             (Dict Sample.neither_msg) Sample.connected).
    split; reflexivity.
  - apply (recv_neither_shape Sample.clock Sample.predict_images "sid-1"
             (Plain (VNum 5)) Sample.connected).
    exact I.
Defined.

(** C10 as worded fails: on a payload with a batch and a report that is
    a string, from a connected device, the handler raises [TypeError]
    and has added nothing to the counter. *)
Lemma treated_as_report_counterexample :
  sessions Sample.connected !! "sid-1" = Some {[ "device_id" := "d1" ]} ∧
  has_non_null "acc_transtime" Sample.text_report_both_msg = true ∧
  Sample.text_report_both_msg !! "data" = Some Sample.batch ∧
  EdgeNode.recv Sample.clock Sample.predict_images "sid-1"
    Sample.text_report_both_msg Sample.connected =
    (Sample.connected, Raise (TypeError "+")) ∧
  ¬ treated_as_report (EdgeNode.recv Sample.clock Sample.predict_images)
      "sid-1" Sample.text_report_both_msg Sample.connected.
Proof.
  split; [reflexivity|]. split; [reflexivity|]. split; [reflexivity|].
  assert (EdgeNode.recv Sample.clock Sample.predict_images "sid-1"
            Sample.text_report_both_msg Sample.connected =
          (Sample.connected, Raise (TypeError "+"))) as Hrun
    by (vm_compute; reflexivity).
  split; [exact Hrun|].
  intros [Hret _]. rewrite Hrun in Hret. discriminate Hret.
Qed.

(** C10 at a payload with a report of 2.5 seconds and a batch. *)
Lemma recv_both_fields_witness :
  ∃ s' : state,
    EdgeNode.recv Sample.clock Sample.predict_images "sid-1"
      Sample.both_msg Sample.connected = (s', Ok tt) ∧
    transtime s' = transtime Sample.connected + (5 # 2) ∧
    proctime s' = proctime Sample.connected ∧
    filter is_predict (added Sample.connected s') = [] ∧
    filter is_emit (added Sample.connected s') = [] ∧
    queue s' = queue Sample.connected ∧ ticks s' = ticks Sample.connected.
Proof.
  apply (recv_both_fields Sample.clock Sample.predict_images "sid-1"
           Sample.both_msg Sample.connected
           {[ "device_id" := "d1" ]} "d1" (5 # 2) Sample.batch);
    reflexivity.
Defined.

(** C9 as worded fails: a header that is present and empty is not what
    the session stores. *)
Lemma header_stored_counterexample :
  ¬ header_stored EdgeNode.connect "sid-1" {[ "HTTP_DEVICE_ID" := "" ]} init ∧
  ¬ header_stored Trigger.connect "sid-1" {[ "HTTP_DEVICE_ID" := "" ]} init.
Proof.
  split; intros H; specialize (H "" eq_refl);
    apply (f_equal (λ o, o ≫= (.!! "device_id"))) in H;
    vm_compute in H; discriminate H.
Qed.

(** C4 as worded fails: a negative report lowers the transmission-time
    counter, and a clock stepping back lowers the processing-time
    counter. *)
Lemma counters_monotone_counterexample :
  ¬ counters_monotone Sample.clock Sample.predict_images
      (OpRecv "sid-1" Sample.negative_report_msg) Sample.connected ∧
  ¬ counters_monotone Sample.clock_back Sample.predict_images
      (OpProcess "d1" Sample.batch) init.
Proof.
  split.
  - intros [Ht _]. vm_compute in Ht. exact (Ht eq_refl).
  - intros [_ Hp]. vm_compute in Hp. exact (Hp eq_refl).
Qed.

(** C4 as the code has it, at a report of 2.5 seconds. *)
Lemma counters_nondecreasing_witness :
  counters_monotone Sample.clock Sample.predict_images
    (OpRecv "sid-1" Sample.report_msg) Sample.connected.
Proof.
  apply (counters_nondecreasing Sample.clock Sample.predict_images
           (OpRecv "sid-1" Sample.report_msg) Sample.connected).
  vm_compute. repeat split; discriminate.
Defined.

(** * How the handlers compose *)

Lemma disconnect_cases (sid : string) (s : state) :
  EdgeNode.disconnect sid s =
    match sessions s !! sid with
    | None => (s, Raise (KeyError "Session not found"))
    | Some sess =>
        match sess !! "device_id" with
        | None => (s, Raise (KeyError "device_id"))
        | Some device_id =>
            ({| transtime := transtime s; proctime := proctime s;
                sessions := sessions s; queue := queue s;
                trace := trace s ++ [ LogInfo (MsgDisconnected device_id) ];
                ticks := ticks s |}, Ok tt)
        end
    end.
Proof.
  py_unfold. destruct (sessions s !! sid) as [sess|]; [|reflexivity].
  unfold getitem. destruct (sess !! "device_id"); [|reflexivity].
  py_state.
Qed.

Section Composition.

Variable clock : nat → Q.
Variable predict_images : list value → result value.

Abbreviation recv := (EdgeNode.recv clock predict_images).
Abbreviation process_iot_data :=
  (EdgeNode.process_iot_data clock predict_images).
Abbreviation run_op' := (run_op clock predict_images).
Abbreviation run_ops' := (run_ops clock predict_images).

Lemma report_outcome (o : op) (device_id : string) (data : payload)
    (s : state) :
  outcome clock predict_images o s
    ((v ← lift (getitem data "acc_transtime");
      EdgeNode.add_transtime_value v;;
      log_info (MsgAccTranstime device_id v)) s).
Proof.
  cbv [mbind Py_bind bind lift getitem].
  destruct (data !! "acc_transtime") as [v|]; [|constructor].
  unfold EdgeNode.add_transtime_value.
  destruct (py_add (transtime s) v) as [q|e] eqn:Hq; [|constructor].
  assert (log_info (MsgAccTranstime device_id v) (set_transtime q s) =
    ({| transtime := q; proctime := proctime s;
        sessions := sessions s; queue := queue s;
        trace := trace s ++
          [ Store Transtime q; LogInfo (MsgAccTranstime device_id v) ];
        ticks := ticks s |}, Ok tt)) as -> by (py_unfold; py_state).
  by constructor.
Qed.

Lemma process_outcome (o : op) (device_id : string) (data : value)
    (s : state) :
  outcome clock predict_images o s (process_iot_data device_id data s).
Proof.
  destruct (py_len data) as [n|e] eqn:Hlen.
  - destruct (py_len_list clock predict_images _ _ Hlen) as [items Hlist].
    destruct (predict_images items) as [out|e] eqn:Hout.
    + rewrite (process_iot_data_ok _ _ _ _ _ _ _ _ Hlen Hlist Hout).
      by constructor.
    + rewrite (process_iot_data_raise _ _ _ _ _ _ _ _ Hlen Hlist Hout).
      constructor.
  - rewrite (process_iot_data_not_seq _ _ _ _ _ _ Hlen). constructor.
Qed.

(** Every operation ends in one of the shapes of [outcome]. *)
Lemma run_op_outcome (o : op) (s : state) : outcome clock predict_images o s (run_op' o s).
Proof.
  destruct o as [sid environ|sid|sid data|device_id data
                |sid environ|sid|sid data]; cbn [run_op].
  - rewrite connect_state. by constructor.
  - rewrite disconnect_cases.
    destruct (sessions s !! sid) as [sess|]; [|constructor].
    destruct (sess !! "device_id"); constructor.
  - rewrite recv_cases.
    destruct (sessions s !! sid) as [sess|]; [|constructor].
    destruct (sess !! "device_id") as [device_id|]; [|constructor].
    destruct (has_non_null "acc_transtime" data); [apply report_outcome|].
    destruct (data !! "data"); [apply process_outcome|constructor].
  - apply process_outcome.
  - change (Trigger.connect sid environ) with (EdgeNode.connect sid environ).
    rewrite connect_state. by constructor.
  - change (Trigger.disconnect sid) with (EdgeNode.disconnect sid).
    rewrite disconnect_cases.
    destruct (sessions s !! sid) as [sess|]; [|constructor].
    destruct (sess !! "device_id"); constructor.
  - destruct (has_non_null "data" data) eqn:Hd.
    + rewrite (qrecv_data sid data s Hd). constructor. cbn. by rewrite Hd.
    + destruct (has_non_null "acc_transtime" data) eqn:Hn.
      * unfold Trigger.recv. rewrite Hd, Hn. apply report_outcome.
      * rewrite (qrecv_neither sid data s Hd Hn). constructor.
Qed.

(** X8.  A batch sent after connecting is processed under the device id
    fixed at connect time: [recv] on the connection, for a payload with a
    [data] field and no non-null report, is [process_iot_data] called
    with the id that [connect] derived from the header, or with the
    connection id when the header was absent or empty. *)
Theorem connect_then_recv (sid : string) (environ : gmap string string)
    (data : payload) (batch : value) (s : state) :
  has_non_null "acc_transtime" data = false →
  data !! "data" = Some batch →
  let device_id :=
    match environ !! "HTTP_DEVICE_ID" with
    | Some h => if decide (h = "") then sid else h
    | None => sid
    end in
  recv sid data (fst (EdgeNode.connect sid environ s)) =
    process_iot_data device_id batch (fst (EdgeNode.connect sid environ s)).
Proof.
  intros Hn Hb device_id.
  unfold device_id. rewrite <- or_else_spec. fold (get_device_id environ).
  rewrite connect_state. cbn [fst].
  eapply recv_batch; [|apply lookup_insert_eq|done|done].
  cbn [sessions]. apply lookup_insert_eq.
Qed.

(** X9.  Connecting again on the same connection id replaces the
    session: the store is what a single connect with the second
    environment would have left, and the first device id is gone. *)
Theorem reconnect_overwrites (sid : string)
    (environ1 environ2 : gmap string string) (s : state) :
  sessions (fst (EdgeNode.connect sid environ2
                   (fst (EdgeNode.connect sid environ1 s)))) =
    sessions (fst (EdgeNode.connect sid environ2 s)) ∧
  sessions (fst (EdgeNode.connect sid environ2
                   (fst (EdgeNode.connect sid environ1 s)))) !! sid =
    Some {[ "device_id" := or_else (get_device_id environ2) sid ]}.
Proof.
  rewrite !connect_state. cbn [fst sessions].
  rewrite insert_insert_eq. split; [done|]. apply lookup_insert_eq.
Qed.

(** X10.  [disconnect] on a connection id without a session raises
    [KeyError], in both files, and leaves the node state as it was:
    nothing is logged. *)
Theorem disconnect_unknown_session (sid : string) (s : state) :
  sessions s !! sid = None →
  EdgeNode.disconnect sid s = (s, Raise (KeyError "Session not found")) ∧
  Trigger.disconnect sid s = (s, Raise (KeyError "Session not found")).
Proof.
  intros Hs. change (Trigger.disconnect sid) with (EdgeNode.disconnect sid).
  rewrite disconnect_cases, Hs. done.
Qed.

(** X11.  [disconnect] after [connect] logs the device id chosen at
    connect time and changes nothing else: in particular the handler does
    not remove the session, which is still in the store afterwards. *)
Theorem connect_then_disconnect (sid : string) (environ : gmap string string)
    (s : state) :
  let device_id := or_else (get_device_id environ) sid in
  let s1 := fst (EdgeNode.connect sid environ s) in
  ∃ s2 : state,
    EdgeNode.disconnect sid s1 = (s2, Ok tt) ∧
    added s1 s2 = [ LogInfo (MsgDisconnected device_id) ] ∧
    sessions s2 = sessions s1 ∧
    sessions s2 !! sid = Some {[ "device_id" := device_id ]} ∧
    transtime s2 = transtime s1 ∧ proctime s2 = proctime s1 ∧
    queue s2 = queue s1.
Proof.
  intros device_id s1. unfold s1. rewrite connect_state. cbn [fst].
  rewrite disconnect_cases. cbn [sessions].
  rewrite lookup_insert_eq, lookup_singleton_eq.
  eexists. split; [reflexivity|]. cbn [sessions transtime proctime queue].
  split; [by apply added_app|]. split; [done|].
  split; [apply lookup_insert_eq|done].
Qed.

(** X12.  A report that is a string or a list cannot be added to the
    counter: [recv] of EdgeNode.py, for a connected device, raises
    [TypeError] and leaves the node state as it was, and so does [recv]
    of trigger.py when the payload has no non-null [data] field. *)
Theorem recv_report_not_a_number (sid : string) (data : payload) (s : state)
    (sess : session) (device_id : string) (v : value) :
  sessions s !! sid = Some sess →
  sess !! "device_id" = Some device_id →
  data !! "acc_transtime" = Some v →
  match v with VStr _ | VList _ => True | _ => False end →
  recv sid data s = (s, Raise (TypeError "+")) ∧
  (has_non_null "data" data = false →
   Trigger.recv sid data s = (s, Raise (TypeError "+"))).
Proof.
  intros Hs Hdev Hv Hty.
  assert (has_non_null "acc_transtime" data = true) as Hn
    by (unfold has_non_null; rewrite Hv; by destruct v).
  split.
  - rewrite recv_cases, Hs, Hdev, Hn.
    cbv [mbind Py_bind bind lift getitem]. rewrite Hv.
    unfold EdgeNode.add_transtime_value. by destruct v.
  - intros Hd. unfold Trigger.recv. rewrite Hd, Hn.
    cbv [mbind Py_bind bind lift getitem]. rewrite Hv.
    unfold EdgeNode.add_transtime_value. by destruct v.
Qed.

(** X13.  Only [connect] writes to the session store: every other
    operation, whether it returns or raises, leaves all sessions as they
    were.  No handler removes a session. *)
Theorem sessions_only_connect (o : op) (s : state) :
  is_connect o = false →
  sessions (fst (run_op' o s)) = sessions s.
Proof.
  intros Ho. destruct (run_op_outcome o s); try done. congruence.
Qed.

Lemma run_op_queue (o : op) (s : state) :
  queue (fst (run_op' o s)) = queue s ++ option_list (enqueued_entry o).
Proof.
  destruct (enqueued_entry o) as [entry|] eqn:He.
  - destruct o as [| | | | | |sid' data']; try discriminate He.
    cbn in He. destruct (has_non_null "data" data') eqn:Hd; [|done].
    injection He as <-. cbn [run_op].
    by rewrite (qrecv_data sid' data' s Hd).
  - destruct (run_op_outcome o s); cbn [fst queue option_list];
      rewrite ?app_nil_r; congruence.
Qed.

(** X14.  The queue is first-in first-out by arrival: after any sequence
    of operations it is the old queue followed by one entry for each
    message with a non-null [data] field that went through [recv] of
    trigger.py, in the order they arrived.  Nothing else enqueues and
    nothing dequeues. *)
Theorem queue_arrival_order (ops : list op) (s : state) :
  queue (run_ops' ops s) = queue s ++ omap enqueued_entry ops.
Proof.
  revert s. induction ops as [|o ops IH]; intros s; cbn.
  - by rewrite app_nil_r.
  - fold (run_ops' ops (fst (run_op' o s))). rewrite IH, run_op_queue.
    destruct (enqueued_entry o); cbn; by rewrite <- app_assoc.
Qed.

(** X15.  An operation that returns has emitted upstream either
    nothing, or exactly two messages: first [{"data": out}] with [out]
    what the inference step returned on the one batch it was called on,
    then a statistics message whose [transtime] and [proctime] fields
    are the two counters exactly as the operation leaves them and whose
    [data] field is [None]. *)
Theorem emits_paired (o : op) (s : state) :
  snd (run_op' o s) = Ok tt →
  let s' := fst (run_op' o s) in
  filter is_emit (added s s') = [] ∨
  ∃ (items : list value) (out : value),
    predict_images items = Ok out ∧
    filter is_predict (added s s') = [ Predict items ] ∧
    filter is_emit (added s s') =
      [ Emit "recv" {[ "data" := out ]};
        Emit "recv"
          (<[ "transtime" := VNum (transtime s') ]>
             (<[ "proctime" := VNum (proctime s') ]>
                ({[ "data" := VNone ]}))) ].
Proof.
  intros Hret s'. unfold s'.
  destruct (run_op_outcome o s) as [| | | | | |dev n items out Hout|];
    cbn [fst snd] in *; try discriminate Hret;
    try (left; rewrite ?added_same; [reflexivity]);
    try (left; erewrite added_app by reflexivity; reflexivity).
  right. exists items, out. split; [done|].
  erewrite added_app by reflexivity. split; reflexivity.
Qed.

(** X17.  Reports accumulate: after a connected device sent a sequence of
    numeric transmission-time reports, the transmission-time counter is
    its old value with the reports added one after the other, in order
    of arrival, and the processing-time counter is untouched. *)
Theorem reports_accumulate (sid : string) (xs : list Q) (s : state)
    (sess : session) (device_id : string) :
  sessions s !! sid = Some sess →
  sess !! "device_id" = Some device_id →
  transtime (run_ops' ((λ x, OpRecv sid (report_of x)) <$> xs) s) =
    foldl Qplus (transtime s) xs ∧
  proctime (run_ops' ((λ x, OpRecv sid (report_of x)) <$> xs) s) =
    proctime s.
Proof.
  intros Hs Hdev. revert s Hs.
  induction xs as [|x xs IH]; intros s Hs; [done|].
  change (run_ops' ((λ x, OpRecv sid (report_of x)) <$> x :: xs) s)
    with (run_ops' ((λ x, OpRecv sid (report_of x)) <$> xs)
            (fst (recv sid (report_of x) s))).
  rewrite (recv_report clock predict_images sid (report_of x) s sess
             device_id x Hs Hdev (lookup_singleton_eq _ _)).
  cbn [fst].
  match goal with |- context [run_ops clock predict_images _ ?s1] =>
    destruct (IH s1) as [-> ->]; [exact Hs|done]
  end.
Qed.

End Composition.

(** X8 at a batch from a device announcing itself as ["d1"]. *)
Lemma connect_then_recv_witness :
  let device_id :=
    match ({[ "HTTP_DEVICE_ID" := "d1" ]} : gmap string string)
            !! "HTTP_DEVICE_ID" with
    | Some h => if decide (h = "") then "sid-1" else h
    | None => "sid-1"
    end in
  EdgeNode.recv Sample.clock Sample.predict_images "sid-1" Sample.data_msg
    (fst (EdgeNode.connect "sid-1" {[ "HTTP_DEVICE_ID" := "d1" ]} init)) =
  EdgeNode.process_iot_data Sample.clock Sample.predict_images device_id
    Sample.batch
    (fst (EdgeNode.connect "sid-1" {[ "HTTP_DEVICE_ID" := "d1" ]} init)).
Proof.
  exact (connect_then_recv Sample.clock Sample.predict_images "sid-1"
           {[ "HTTP_DEVICE_ID" := "d1" ]} Sample.data_msg Sample.batch init
           eq_refl eq_refl).
Defined.

(** X10 on a connection that never connected. *)
Lemma disconnect_unknown_session_witness :
  EdgeNode.disconnect "ghost" init =
    (init, Raise (KeyError "Session not found")) ∧
  Trigger.disconnect "ghost" init =
    (init, Raise (KeyError "Session not found")).
Proof.
  apply (disconnect_unknown_session "ghost" init). reflexivity.
Defined.

(** X12 at a report that is a string. *)
Lemma recv_report_not_a_number_witness :
  EdgeNode.recv Sample.clock Sample.predict_images "sid-1"
    {[ "acc_transtime" := VStr "fast" ]} Sample.connected =
    (Sample.connected, Raise (TypeError "+")) ∧
  (has_non_null "data" ({[ "acc_transtime" := VStr "fast" ]} : payload) = false →
   Trigger.recv "sid-1" {[ "acc_transtime" := VStr "fast" ]} Sample.connected =
     (Sample.connected, Raise (TypeError "+"))).
Proof.
  apply (recv_report_not_a_number Sample.clock Sample.predict_images "sid-1"
           {[ "acc_transtime" := VStr "fast" ]} Sample.connected
           {[ "device_id" := "d1" ]} "d1" (VStr "fast"));
    (reflexivity || exact I).
Defined.

(** X13 at a batch from a connected device. *)
Lemma sessions_only_connect_witness :
  sessions (fst (run_op Sample.clock Sample.predict_images
                   (OpRecv "sid-1" Sample.data_msg) Sample.connected)) =
    sessions Sample.connected.
Proof.
  apply (sessions_only_connect Sample.clock Sample.predict_images
           (OpRecv "sid-1" Sample.data_msg) Sample.connected).
  reflexivity.
Defined.

(** X15 at a batch from a connected device. *)
Lemma emits_paired_witness :
  let s' := fst (run_op Sample.clock Sample.predict_images
                   (OpRecv "sid-1" Sample.data_msg) Sample.connected) in
  filter is_emit (added Sample.connected s') = [] ∨
  ∃ (items : list value) (out : value),
    Sample.predict_images items = Ok out ∧
    filter is_predict (added Sample.connected s') = [ Predict items ] ∧
    filter is_emit (added Sample.connected s') =
      [ Emit "recv" {[ "data" := out ]};
        Emit "recv"
          (<[ "transtime" := VNum (transtime s') ]>
             (<[ "proctime" := VNum (proctime s') ]>
                ({[ "data" := VNone ]}))) ].
Proof.
  apply (emits_paired Sample.clock Sample.predict_images
           (OpRecv "sid-1" Sample.data_msg) Sample.connected).
  vm_compute. reflexivity.
Defined.

(** X17 at two reports, of 1 and of 2.5 seconds. *)
Lemma reports_accumulate_witness :
  transtime (run_ops Sample.clock Sample.predict_images
               ((λ x, OpRecv "sid-1" (report_of x)) <$> [1; 5 # 2])
               Sample.connected) =
    foldl Qplus (transtime Sample.connected) [1; 5 # 2] ∧
  proctime (run_ops Sample.clock Sample.predict_images
              ((λ x, OpRecv "sid-1" (report_of x)) <$> [1; 5 # 2])
              Sample.connected) =
    proctime Sample.connected.
Proof.
  apply (reports_accumulate Sample.clock Sample.predict_images "sid-1"
           [1; 5 # 2] Sample.connected {[ "device_id" := "d1" ]} "d1");
    reflexivity.
Defined.

(** * The partition functions of helpers/common.py *)

Local Close Scope Q_scope.

Section Distribute.

Context {A B : Type} (f : A → B).

Lemma divmod_succ (n m : nat) :
  0 < n →
  (m mod n = n - 1 ∧ S m mod n = 0 ∧ S m / n = S (m / n)) ∨
  (m mod n < n - 1 ∧ S m mod n = S (m mod n) ∧ S m / n = m / n).
Proof.
  intros Hn.
  pose proof (Nat.div_mod_eq m n) as Hm.
  pose proof (Nat.mod_upper_bound m n ltac:(lia)) as Hlt.
  destruct (decide (m mod n = n - 1)) as [Heq|Hne].
  - left. split; [done|].
    assert (S m = n * S (m / n) + 0) as Hs by lia.
    split.
    + symmetry. apply (Nat.mod_unique _ _ (S (m / n))); lia.
    + symmetry. apply (Nat.div_unique _ _ _ 0); lia.
  - right. split; [lia|].
    assert (S m = n * (m / n) + S (m mod n)) as Hs by lia.
    split.
    + symmetry. apply (Nat.mod_unique _ _ (m / n)); lia.
    + symmetry. apply (Nat.div_unique _ _ _ (S (m mod n))); lia.
Qed.

Lemma distribute_app (num_parts : Z) (i : nat) (l1 l2 : list A)
    (parts : list (list B)) :
  Common.distribute f num_parts i (l1 ++ l2) parts =
    match Common.distribute f num_parts i l1 parts with
    | inr parts' => Common.distribute f num_parts (i + length l1) l2 parts'
    | inl e => inl e
    end.
Proof.
  revert i parts. induction l1 as [|x l1 IH]; intros i parts; cbn.
  - by rewrite Nat.add_0_r.
  - destruct (Common.put f num_parts i x parts) as [e|parts']; [done|].
    rewrite IH. by replace (S i + length l1) with (i + S (length l1)) by lia.
Qed.

(** With a positive number of parts and as many parts in the list, the
    index is in range. *)
Lemma put_pos (num_parts : Z) (i : nat) (x : A) (parts : list (list B)) :
  (0 < num_parts)%Z →
  length parts = Z.to_nat num_parts →
  Common.put f num_parts i x parts =
    inr (alter (λ p, p ++ [f x]) (i mod Z.to_nat num_parts) parts).
Proof.
  intros Hn Hlen. unfold Common.put, Common.py_index.
  destruct (Z.eqb_spec num_parts 0) as [->|_]; [lia|].
  pose proof (Z.mod_pos_bound (Z.of_nat i) num_parts Hn) as [Hlo Hhi].
  destruct (Z.ltb_spec (Z.of_nat i mod num_parts) 0) as [?|_]; [lia|].
  rewrite Hlen, Z2Nat.id by lia.
  destruct (Z.leb_spec 0 (Z.of_nat i mod num_parts)) as [_|?]; [|lia].
  destruct (Z.ltb_spec (Z.of_nat i mod num_parts) num_parts) as [_|?]; [|lia].
  cbn. do 2 f_equal.
  rewrite <- (Z2Nat.id num_parts) at 1 by lia.
  rewrite <- Nat2Z.inj_mod. apply Nat2Z.id.
Qed.

Lemma laid_out_init (n : nat) (items : list A) :
  Common.laid_out f n items 0 (replicate n []).
Proof.
  split; [by rewrite length_replicate|].
  intros k p [-> Hk]%lookup_replicate.
  rewrite Nat.Div0.div_0_l, Nat.Div0.mod_0_l. cbn.
  split; [by case_decide; lia|]. intros j Hj. lia.
Qed.

Lemma laid_out_step (n : nat) (items : list A) (m : nat) (x : A)
    (parts : list (list B)) :
  0 < n →
  items !! m = Some x →
  Common.laid_out f n items m parts →
  Common.laid_out f n items (S m) (alter (λ p, p ++ [f x]) (m mod n) parts).
Proof.
  intros Hn Hx [Hlen Hparts]. split; [by rewrite length_alter|].
  intros k p' Hk.
  pose proof (Nat.div_mod_eq m n) as Hm.
  pose proof (Nat.mod_upper_bound m n ltac:(lia)) as Hlt.
  destruct (decide (k = m mod n)) as [->|Hne].
  - rewrite list_lookup_alter_eq in Hk.
    destruct (parts !! (m mod n)) as [p|] eqn:Hp; [|done].
    injection Hk as <-. destruct (Hparts _ _ Hp) as [Hlp Hjp].
    rewrite decide_False in Hlp by lia.
    rewrite length_app. cbn [length]. split.
    + destruct (divmod_succ n m Hn) as [(? & -> & ->)|(? & -> & ->)];
        case_decide; lia.
    + intros j Hj. destruct (decide (j < length p)) as [Hjl|Hjl].
      * rewrite lookup_app_l by done. by apply Hjp.
      * assert (j = length p) as -> by lia.
        rewrite lookup_app_r, Nat.sub_diag by lia. cbn.
        replace (length p * n + m mod n) with m by lia. by rewrite Hx.
  - rewrite list_lookup_alter_ne in Hk by done.
    destruct (Hparts _ _ Hk) as [Hlp Hjp].
    assert (k < n) by (rewrite <- Hlen; by eapply lookup_lt_Some).
    split; [|done]. rewrite Hlp.
    destruct (divmod_succ n m Hn) as [(? & -> & ->)|(? & -> & ->)];
      repeat case_decide; lia.
Qed.

(** The loop run from index 0 over a prefix of the items. *)
Lemma distribute_prefix (num_parts : Z) (l1 l2 : list A) :
  (0 < num_parts)%Z →
  ∃ parts : list (list B),
    Common.distribute f num_parts 0 l1 (Common.empty_parts num_parts) =
      inr parts ∧
    Common.laid_out f (Z.to_nat num_parts) (l1 ++ l2) (length l1) parts.
Proof.
  intros Hn. revert l2. induction l1 as [|x l1 IH] using rev_ind; intros l2.
  - eexists. split; [done|]. apply laid_out_init.
  - destruct (IH (x :: l2)) as (parts & Hrun & Hinv).
    rewrite distribute_app, Hrun. cbn [Common.distribute].
    rewrite put_pos by (done || apply Hinv). eexists. split; [done|].
    rewrite <- app_assoc, length_app, Nat.add_1_r. cbn [app length].
    apply laid_out_step; [lia| |done].
    by rewrite lookup_app_r, Nat.sub_diag by lia.
Qed.

(** The whole loop, for a positive number of parts. *)
Lemma distribute_layout (num_parts : Z) (items : list A) :
  (0 < num_parts)%Z →
  let n := Z.to_nat num_parts in
  ∃ parts : list (list B),
    Common.distribute f num_parts 0 items (Common.empty_parts num_parts) =
      inr parts ∧
    length parts = n ∧
    (∀ k j : nat, k < n →
       parts !! k ≫= (.!! j) = f <$> items !! (j * n + k)) ∧
    (∀ k : nat, k < n →
       length <$> parts !! k =
         Some (length items / n +
               (if decide (k < length items mod n) then 1 else 0))).
Proof.
  intros Hn n.
  destruct (distribute_prefix num_parts items [] Hn) as (parts & Hrun & Hinv).
  rewrite app_nil_r in Hinv. destruct Hinv as [Hlen Hparts].
  exists parts. fold n in Hlen, Hparts. split; [done|]. split; [done|].
  assert (0 < n) by (unfold n; lia).
  pose proof (Nat.div_mod_eq (length items) n) as Hm.
  pose proof (Nat.mod_upper_bound (length items) n ltac:(lia)) as Hlt.
  split.
  - intros k j Hk.
    destruct (lookup_lt_is_Some_2 parts k ltac:(lia)) as [p Hp].
    rewrite Hp. cbn. destruct (Hparts _ _ Hp) as [Hlp Hjp].
    destruct (decide (j < length p)) as [Hj|Hj]; [by apply Hjp|].
    rewrite (lookup_ge_None_2 p) by lia.
    rewrite (lookup_ge_None_2 items); [done|].
    case_decide; nia.
  - intros k Hk.
    destruct (lookup_lt_is_Some_2 parts k ltac:(lia)) as [p Hp].
    rewrite Hp. cbn. by destruct (Hparts _ _ Hp) as [-> _].
Qed.

(** Appending to one part appends to the concatenation, up to order. *)
Lemma concat_alter_snoc (parts : list (list B)) (k : nat) (y : B) :
  k < length parts →
  concat (alter (λ p, p ++ [y]) k parts) ≡ₚ concat parts ++ [y].
Proof.
  revert k. induction parts as [|p parts IH]; intros k Hk; cbn in *; [lia|].
  destruct k as [|k]; cbn.
  - rewrite <- !app_assoc. apply Permutation_app_head, Permutation_app_comm.
  - rewrite IH by lia. by rewrite app_assoc.
Qed.

Lemma distribute_permutation (num_parts : Z) (i : nat) (items : list A)
    (parts : list (list B)) :
  (0 < num_parts)%Z →
  length parts = Z.to_nat num_parts →
  ∃ parts' : list (list B),
    Common.distribute f num_parts i items parts = inr parts' ∧
    concat parts' ≡ₚ concat parts ++ (f <$> items).
Proof.
  intros Hn. revert i parts.
  induction items as [|x items IH]; intros i parts Hlen; cbn.
  - eexists. split; [done|]. by rewrite app_nil_r.
  - rewrite put_pos by done.
    destruct (IH (S i) (alter (λ p, p ++ [f x]) (i mod Z.to_nat num_parts) parts))
      as (parts' & -> & Hperm); [by rewrite length_alter|].
    eexists. split; [done|]. rewrite Hperm, concat_alter_snoc.
    + by rewrite <- app_assoc.
    + rewrite Hlen. apply Nat.mod_upper_bound. lia.
Qed.

(** Whatever the number of parts, the loop only ever adds images of the
    items. *)
Lemma distribute_elem (num_parts : Z) (i : nat) (items : list A)
    (parts parts' : list (list B)) (y : B) :
  Common.distribute f num_parts i items parts = inr parts' →
  y ∈ concat parts' → y ∈ concat parts ∨ y ∈ f <$> items.
Proof.
  revert i parts. induction items as [|x items IH]; intros i parts; cbn.
  - intros [= <-]. auto.
  - unfold Common.put.
    destruct (num_parts =? 0)%Z; [done|].
    destruct (Common.py_index parts _) as [e|k] eqn:Hk; [done|].
    intros Hrun Hy. destruct (IH _ _ Hrun Hy) as [Hin|Hin].
    + assert (k < length parts) as Hlt.
      { unfold Common.py_index in Hk.
        destruct (_ && _)%bool eqn:Hb in Hk; [|done].
        injection Hk as <-. apply andb_prop in Hb as [H1 H2].
        apply Z.leb_le in H1. apply Z.ltb_lt in H2. lia. }
      rewrite concat_alter_snoc in Hin by done.
      apply elem_of_app in Hin as [Hin|Hin%list_elem_of_singleton]; [by left|].
      right. subst. apply elem_of_cons. by left.
    + right. apply elem_of_cons. by right.
Qed.

(** Zero parts: the first item divides by zero. *)
Lemma distribute_zero (i : nat) (items : list A) (parts : list (list B)) :
  Common.distribute f 0 i items parts =
    match items with [] => inr parts | _ => inl Common.ZeroDivisionError end.
Proof. by destruct items. Qed.

(** A negative number of parts: there is no part to index. *)
Lemma distribute_negative (num_parts : Z) (items : list A) :
  (num_parts < 0)%Z →
  Common.distribute f num_parts 0 items (Common.empty_parts num_parts) =
    match items with [] => inr [] | _ => inl Common.IndexError end.
Proof.
  intros Hn. unfold Common.empty_parts.
  rewrite Z2Nat.nonpos by lia. destruct items as [|x items]; [done|].
  cbn. unfold Common.put. destruct (Z.eqb_spec num_parts 0); [lia|].
  by cbn.
Qed.

End Distribute.

(** ** Strings and paths *)

Lemma list_ascii_of_string_app (a b : string) :
  String.list_ascii_of_string (a +:+ b) =
    String.list_ascii_of_string a ++ String.list_ascii_of_string b.
Proof.
  induction a as [|c a IH]; [done|].
  change (c :: String.list_ascii_of_string (a +:+ b) =
          c :: (String.list_ascii_of_string a ++ String.list_ascii_of_string b)).
  by rewrite IH.
Qed.

Lemma endswith_app (a b suffix : string) :
  Common.endswith b suffix = true → Common.endswith (a +:+ b) suffix = true.
Proof.
  unfold Common.endswith. intros Hb%bool_decide_eq_true.
  apply bool_decide_eq_true. rewrite list_ascii_of_string_app.
  by apply suffix_app_r.
Qed.

(** A joined path ends the way its last component does. *)
Lemma endswith_path_join (a b suffix : string) :
  Common.endswith b suffix = true →
  Common.endswith (Common.path_join a b) suffix = true.
Proof.
  intros Hb. unfold Common.path_join.
  destruct (String.prefix "/" b); [done|].
  destruct (_ || _); [by apply endswith_app|].
  by do 2 apply endswith_app.
Qed.

(** ** The partition functions *)

Lemma concat_empty_parts {B} (num_parts : Z) :
  concat (@Common.empty_parts B num_parts) = [].
Proof.
  unfold Common.empty_parts.
  induction (Z.to_nat num_parts) as [|n IH]; [done|]. exact IH.
Qed.

(** X1.  [partition_text] with a positive number of parts returns that
    many parts, and element [j] of part [k] is line [j * num_parts + k]
    of the input: the lines are dealt round-robin and each part keeps
    the input order. *)
Theorem partition_text_round_robin (reviews : list string) (num_parts : Z) :
  (0 < num_parts)%Z →
  ∃ parts : list (list string),
    Common.partition_text reviews num_parts = inr parts ∧
    length parts = Z.to_nat num_parts ∧
    ∀ k j : nat, k < Z.to_nat num_parts →
      parts !! k ≫= (.!! j) = reviews !! (j * Z.to_nat num_parts + k).
Proof.
  intros Hn.
  destruct (distribute_layout id num_parts reviews Hn)
    as (parts & Hrun & Hlen & Hlay & _).
  exists parts. split; [done|]. split; [done|].
  intros k j Hk. rewrite (Hlay k j Hk). by destruct (reviews !! _).
Qed.

(** X2.  [partition_text] is balanced: with [n > 0] parts and [m] lines,
    part [k] gets [m / n] lines plus one more when [k < m mod n], so no
    two parts differ by more than one line. *)
Theorem partition_text_balanced (reviews : list string) (num_parts : Z) :
  (0 < num_parts)%Z →
  let n := Z.to_nat num_parts in
  ∃ parts : list (list string),
    Common.partition_text reviews num_parts = inr parts ∧
    (∀ (k : nat) (p : list string), parts !! k = Some p →
       length p =
         length reviews / n +
         (if decide (k < length reviews mod n) then 1 else 0)) ∧
    (∀ p q : list string, p ∈ parts → q ∈ parts → length p ≤ length q + 1).
Proof.
  intros Hn n.
  destruct (distribute_layout id num_parts reviews Hn)
    as (parts & Hrun & Hlen & _ & Hsize).
  fold n in Hlen, Hsize.
  assert (Hk : ∀ (k : nat) (p : list string), parts !! k = Some p →
    length p = length reviews / n +
               (if decide (k < length reviews mod n) then 1 else 0)).
  { intros k p Hp.
    assert (k < n) as Hlt by (rewrite <- Hlen; by eapply lookup_lt_Some).
    specialize (Hsize k Hlt). rewrite Hp in Hsize. by injection Hsize. }
  exists parts. split; [done|]. split; [done|].
  intros p q [kp Hp]%list_elem_of_lookup [kq Hq]%list_elem_of_lookup.
  rewrite (Hk _ _ Hp), (Hk _ _ Hq). repeat case_decide; lia.
Qed.

(** X3.  [partition_images] with a positive number of parts returns
    that many parts which together hold the joined path of every [.jpg]
    entry of the directory listing exactly once, and nothing else. *)
Theorem partition_images_exact (listing : list string) (dir : string)
    (num_parts : Z) :
  (0 < num_parts)%Z →
  ∃ parts : list (list string),
    Common.partition_images listing dir num_parts = inr parts ∧
    length parts = Z.to_nat num_parts ∧
    concat parts ≡ₚ
      Common.path_join dir <$>
        filter (λ img, Common.endswith img ".jpg" = true) listing.
Proof.
  intros Hn. unfold Common.partition_images.
  destruct (distribute_layout id num_parts
              (Common.path_join dir <$>
                 filter (λ img, Common.endswith img ".jpg" = true) listing) Hn)
    as (parts & Hrun & Hlen & _).
  destruct (distribute_permutation id num_parts 0
              (Common.path_join dir <$>
                 filter (λ img, Common.endswith img ".jpg" = true) listing)
              (Common.empty_parts num_parts) Hn)
    as (parts' & Hrun' & Hperm);
    [by unfold Common.empty_parts; rewrite length_replicate|].
  rewrite Hrun in Hrun'. injection Hrun' as <-.
  exists parts. split; [done|]. split; [done|].
  by rewrite Hperm, concat_empty_parts, list_fmap_id.
Qed.

(** X4.  Whatever the number of parts, every path [partition_images]
    returns ends in [.jpg] and is the join of the directory with an entry
    of the listing: other files never get through. *)
Theorem partition_images_jpg_only (listing : list string) (dir : string)
    (num_parts : Z) (parts : list (list string)) (path : string) :
  Common.partition_images listing dir num_parts = inr parts →
  path ∈ concat parts →
  Common.endswith path ".jpg" = true ∧
  ∃ img : string, img ∈ listing ∧ path = Common.path_join dir img.
Proof.
  unfold Common.partition_images. intros Hrun Hin.
  destruct (distribute_elem id _ _ _ _ _ _ Hrun Hin) as [Hin'|Hin'].
  - rewrite concat_empty_parts in Hin'. by apply elem_of_nil in Hin'.
  - rewrite list_fmap_id in Hin'.
    apply list_elem_of_fmap in Hin' as (img & -> & Himg).
    apply list_elem_of_filter in Himg as [Hjpg Himg].
    split; [by apply endswith_path_join|]. eauto.
Qed.

(** X5.  [partition_texts] with a positive number of parts returns that
    many parts which together hold the joined path of every [.txt] entry
    of the listing 300 times over. *)
Theorem partition_texts_exact (listing : list string) (dir : string)
    (num_parts : Z) :
  (0 < num_parts)%Z →
  let txts := filter (λ f, Common.endswith f ".txt" = true) listing in
  ∃ parts : list (list string),
    Common.partition_texts listing dir num_parts = inr parts ∧
    length parts = Z.to_nat num_parts ∧
    concat parts ≡ₚ Common.path_join dir <$> Common.list_mul txts 300 ∧
    length (concat parts) = 300 * length txts.
Proof.
  intros Hn txts. unfold Common.partition_texts. fold txts.
  destruct (distribute_layout (Common.path_join dir) num_parts
              (Common.list_mul txts 300) Hn)
    as (parts & Hrun & Hlen & _).
  destruct (distribute_permutation (Common.path_join dir) num_parts 0
              (Common.list_mul txts 300) (Common.empty_parts num_parts) Hn)
    as (parts' & Hrun' & Hperm);
    [by unfold Common.empty_parts; rewrite length_replicate|].
  rewrite Hrun in Hrun'. injection Hrun' as <-.
  rewrite concat_empty_parts in Hperm. cbn [app] in Hperm.
  exists parts. split; [done|]. split; [done|]. split; [done|].
  rewrite Hperm, length_fmap. unfold Common.list_mul.
  generalize 300. intros c. induction c as [|c IH]; [done|].
  cbn [replicate concat]. rewrite length_app, IH. lia.
Qed.

(** X6.  With zero parts, each partition function returns the empty list
    when it has nothing to distribute and fails with [ZeroDivisionError]
    on its first item otherwise. *)
Theorem partition_zero_parts (reviews listing : list string) (dir : string) :
  Common.partition_text reviews 0 =
    (if decide (reviews = []) then inr [] else inl Common.ZeroDivisionError) ∧
  Common.partition_images listing dir 0 =
    (if decide (filter (λ img, Common.endswith img ".jpg" = true) listing = [])
     then inr [] else inl Common.ZeroDivisionError) ∧
  Common.partition_texts listing dir 0 =
    (if decide (filter (λ f, Common.endswith f ".txt" = true) listing = [])
     then inr [] else inl Common.ZeroDivisionError).
Proof.
  unfold Common.partition_text, Common.partition_images,
    Common.partition_texts.
  rewrite !distribute_zero. split; [|split].
  - by destruct reviews.
  - by destruct (filter _ listing).
  - destruct (filter _ listing) as [|t ts]; [done|]. by cbn.
Qed.

(** X7.  With a negative number of parts there is no part to append to:
    each partition function returns the empty list when it has nothing to
    distribute and fails with [IndexError] on its first item otherwise. *)
Theorem partition_negative_parts (reviews listing : list string)
    (dir : string) (num_parts : Z) :
  (num_parts < 0)%Z →
  Common.partition_text reviews num_parts =
    (if decide (reviews = []) then inr [] else inl Common.IndexError) ∧
  Common.partition_images listing dir num_parts =
    (if decide (filter (λ img, Common.endswith img ".jpg" = true) listing = [])
     then inr [] else inl Common.IndexError) ∧
  Common.partition_texts listing dir num_parts =
    (if decide (filter (λ f, Common.endswith f ".txt" = true) listing = [])
     then inr [] else inl Common.IndexError).
Proof.
  intros Hn.
  unfold Common.partition_text, Common.partition_images,
    Common.partition_texts.
  rewrite !distribute_negative by done. split; [|split].
  - by destruct reviews.
  - by destruct (filter _ listing).
  - destruct (filter _ listing) as [|t ts]; [done|]. by cbn.
Qed.

(** X1 on three lines and two parts. *)
Lemma partition_text_round_robin_witness :
  ∃ parts : list (list string),
    Common.partition_text ["a"; "b"; "c"] 2 = inr parts ∧
    length parts = Z.to_nat 2 ∧
    ∀ k j : nat, k < Z.to_nat 2 →
      parts !! k ≫= (.!! j) = ["a"; "b"; "c"] !! (j * Z.to_nat 2 + k).
Proof.
  apply (partition_text_round_robin ["a"; "b"; "c"] 2). reflexivity.
Defined.

(** X2 on three lines and two parts. *)
Lemma partition_text_balanced_witness :
  ∃ parts : list (list string),
    Common.partition_text ["a"; "b"; "c"] 2 = inr parts ∧
    (∀ (k : nat) (p : list string), parts !! k = Some p →
       length p =
         length ["a"; "b"; "c"] / Z.to_nat 2 +
         (if decide (k < length ["a"; "b"; "c"] mod Z.to_nat 2)
          then 1 else 0)) ∧
    (∀ p q : list string, p ∈ parts → q ∈ parts → length p ≤ length q + 1).
Proof.
  apply (partition_text_balanced ["a"; "b"; "c"] 2). reflexivity.
Defined.

(** X3 on a listing with one file that is not an image. *)
Lemma partition_images_exact_witness :
  ∃ parts : list (list string),
    Common.partition_images ["a.jpg"; "notes.txt"; "b.jpg"] "imgs" 2 =
      inr parts ∧
    length parts = Z.to_nat 2 ∧
    concat parts ≡ₚ
      Common.path_join "imgs" <$>
        filter (λ img, Common.endswith img ".jpg" = true)
          ["a.jpg"; "notes.txt"; "b.jpg"].
Proof.
  apply (partition_images_exact ["a.jpg"; "notes.txt"; "b.jpg"] "imgs" 2).
  reflexivity.
Defined.

(** X4 on the same listing. *)
Lemma partition_images_jpg_only_witness :
  Common.endswith "imgs/b.jpg" ".jpg" = true ∧
  ∃ img : string,
    img ∈ ["a.jpg"; "notes.txt"; "b.jpg"] ∧
    "imgs/b.jpg" = Common.path_join "imgs" img.
Proof.
  apply (partition_images_jpg_only ["a.jpg"; "notes.txt"; "b.jpg"] "imgs" 2
           [["imgs/a.jpg"]; ["imgs/b.jpg"]] "imgs/b.jpg").
  - vm_compute. reflexivity.
  - cbn. apply elem_of_cons. right. apply elem_of_cons. by left.
Defined.

(** X5 on the same listing. *)
Lemma partition_texts_exact_witness :
  ∃ parts : list (list string),
    Common.partition_texts ["a.jpg"; "notes.txt"; "b.jpg"] "txt" 7 =
      inr parts ∧
    length parts = Z.to_nat 7 ∧
    concat parts ≡ₚ
      Common.path_join "txt" <$>
        Common.list_mul
          (filter (λ f, Common.endswith f ".txt" = true)
             ["a.jpg"; "notes.txt"; "b.jpg"]) 300 ∧
    length (concat parts) =
      300 * length (filter (λ f, Common.endswith f ".txt" = true)
                      ["a.jpg"; "notes.txt"; "b.jpg"]).
Proof.
  apply (partition_texts_exact ["a.jpg"; "notes.txt"; "b.jpg"] "txt" 7).
  reflexivity.
Defined.

(** X7 at minus two parts. *)
Lemma partition_negative_parts_witness :
  Common.partition_text ["a"; "b"] (-2) =
    (if decide (["a"; "b"] = []) then inr [] else inl Common.IndexError) ∧
  Common.partition_images ["a.jpg"] "imgs" (-2) =
    (if decide (filter (λ img, Common.endswith img ".jpg" = true) ["a.jpg"] = [])
     then inr [] else inl Common.IndexError) ∧
  Common.partition_texts ["a.jpg"] "txt" (-2) =
    (if decide (filter (λ f, Common.endswith f ".txt" = true) ["a.jpg"] = [])
     then inr [] else inl Common.IndexError).
Proof.
  apply (partition_negative_parts ["a"; "b"] ["a.jpg"] "imgs" (-2)).
  reflexivity.
Defined.

(** * [start_iot] of trigger.py *)

Section StartIotFacts.

Import StartIot.

Ltac iot_unfold :=
  cbv [mbind M_bind StartIot.bind mret M_ret StartIot.ret StartIot.raise
       StartIot.emit set_clients append_client call for_clients].

Variable DATA_CONFIG : gmap string (gmap string string).
Variable getenv : string → option string.
Variable parse_int : string → option Z.
Variable fails : client_call → option exception.

Lemma client_id_inj (device_id : string) : Inj (=) (=) (client_id device_id).
Proof.
  intros i j Hij. unfold client_id in Hij.
  apply String.app_inj, String.app_inj in Hij.
  apply (inj pretty) in Hij. lia.
Qed.

Lemma create_loop_extends (device_id : string) (algo : gmap string string)
    (algo_code : string) (iterations : Z) (i : nat)
    (addresses : list (option string)) (s : frame) (l : list string) :
  iot_clients s = Some l →
  ∃ (evs : list event),
    extends s (fst (create_loop fails device_id algo algo_code iterations i
                      addresses s)) evs (constructed fails evs) ∧
    stopped evs = [].
Proof.
  revert i s l. induction addresses as [|a rest IH]; intros i s l Hl.
  - exists []. split; [|done]. split; [by rewrite app_nil_r|].
    exists l. by rewrite app_nil_r.
  - cbn [create_loop]. iot_unfold.
    destruct (algo !! "data_dir") as [d|].
    2:{ exists []. split; [|done]. split; [by rewrite app_nil_r|].
        exists l. by rewrite app_nil_r. }
    destruct (fails (New (client_id device_id i) a d algo_code iterations))
      as [e|] eqn:Hnew.
    { exists [Call (New (client_id device_id i) a d algo_code iterations)].
      split; [|done]. split; [done|]. cbn.
      rewrite Hnew. exists l. by rewrite app_nil_r. }
    cbn [iot_clients events]. rewrite Hl.
    destruct (fails (Start (client_id device_id i))) as [e|] eqn:Hstart.
    { exists [Call (New (client_id device_id i) a d algo_code iterations);
              Call (Start (client_id device_id i))].
      split; [|done]. cbn [fst events iot_clients].
      split; [by rewrite <- app_assoc|].
      cbn. rewrite Hnew. by exists l. }
    match goal with |- context [create_loop _ _ _ _ _ _ _ ?s1] =>
      destruct (IH (S i) s1 (l ++ [client_id device_id i]) eq_refl)
        as (evs & (Hd & l' & Hl1 & Hl2) & Hst)
    end.
    exists (Call (New (client_id device_id i) a d algo_code iterations)
            :: Call (Start (client_id device_id i)) :: evs).
    split; [|done]. split.
    + rewrite Hd. cbn [events]. by rewrite <- !app_assoc.
    + exists l. split; [done|]. rewrite Hl2.
      cbn in Hl1. injection Hl1 as <-.
      cbn. rewrite Hnew. by rewrite <- app_assoc.
Qed.

Lemma join_loop_extends (clients : list string) (s : frame) (l : list string) :
  iot_clients s = Some l →
  ∃ (evs : list event),
    extends s (fst (join_loop fails clients s)) evs [] ∧
    constructed fails evs = [] ∧ stopped evs = [].
Proof.
  revert s. induction clients as [|c rest IH]; intros s Hl.
  - exists []. split; [|done]. split; [by rewrite app_nil_r|].
    exists l. by rewrite app_nil_r.
  - cbn [join_loop]. iot_unfold.
    destruct (fails (Join c)) as [e|].
    { exists [Call (Join c)]. split; [|done]. split; [done|].
      exists l. by rewrite app_nil_r. }
    match goal with |- context [join_loop _ _ ?s1] =>
      destruct (IH s1 Hl) as (evs & (Hd & l' & Hl1 & Hl2) & Hc & Hst)
    end.
    exists (Call (Join c) :: evs). split; [|done]. split.
    + rewrite Hd. cbn [events]. by rewrite <- app_assoc.
    + exists l. split; [done|]. rewrite Hl2. cbn in Hl1.
      rewrite Hl in Hl1. by injection Hl1 as <-.
Qed.

Lemma stop_loop_returns (clients : list string) (s : frame) :
  (∀ c : string, fails (Stop c) = None) →
  stop_loop fails clients s =
    ({| events := events s ++ (Call ∘ Stop <$> clients);
        iot_clients := iot_clients s |}, inr tt).
Proof.
  intros Hstop. revert s. induction clients as [|c rest IH]; intros s.
  - cbn. rewrite app_nil_r. by destruct s.
  - cbn [stop_loop]. iot_unfold. rewrite Hstop, IH. cbn.
    by rewrite <- app_assoc.
Qed.

Lemma stopped_stops (clients : list string) :
  stopped (Call ∘ Stop <$> clients) = clients.
Proof.
  induction clients as [|c rest IH]; [done|]. cbn. f_equal. exact IH.
Qed.

Lemma constructed_stops (clients : list string) :
  constructed fails (Call ∘ Stop <$> clients) = [].
Proof. induction clients as [|c rest IH]; [done|]. exact IH. Qed.

Abbreviation start_iot' := (start_iot DATA_CONFIG getenv parse_int fails).
Abbreviation try_block' := (try_block DATA_CONFIG getenv parse_int fails).

(** The [try] block failing before [iot_clients] is assigned. *)
Lemma try_block_early (device_id algo_code : string) (iterations : Z) :
  DATA_CONFIG !! algo_code = None ∨
  getenv "NUM_EDGE_NODES" = None ∨
  (∃ v : string, getenv "NUM_EDGE_NODES" = Some v ∧ parse_int v = None) →
  ∃ e : exception,
    try_block' device_id algo_code iterations fresh = (fresh, inl e) ∧
    is_exception (cls e) = true.
Proof.
  unfold try_block, num_edge_nodes. iot_unfold.
  intros [Hcfg|Henv].
  - rewrite Hcfg. by eexists.
  - destruct (DATA_CONFIG !! algo_code); [|by eexists].
    destruct Henv as [->|(v & -> & ->)]; by eexists.
Qed.

(** The [try] block once [iot_clients] is assigned: the variable holds
    the clients constructed so far and none was stopped. *)
Lemma try_block_bound (device_id algo_code : string) (iterations : Z)
    (algo : gmap string string) (v : string) (n : Z) :
  DATA_CONFIG !! algo_code = Some algo →
  getenv "NUM_EDGE_NODES" = Some v →
  parse_int v = Some n →
  let s1 := fst (try_block' device_id algo_code iterations fresh) in
  iot_clients s1 = Some (constructed fails (events s1)) ∧
  stopped (events s1) = [].
Proof.
  intros Hcfg Henv Hint. unfold try_block, num_edge_nodes.
  rewrite Hcfg, Henv, Hint.
  cbv [mbind M_bind StartIot.bind mret M_ret StartIot.ret set_clients fresh].
  cbn [events].
  match goal with |- context [create_loop _ _ _ _ _ _ _ ?s0] =>
    destruct (create_loop_extends device_id algo algo_code iterations 0
                (edge_node_addresses getenv n) s0 [] eq_refl)
      as (evs & (Hd & l & Hl & Hl') & Hst);
    destruct (create_loop fails device_id algo algo_code iterations 0
                (edge_node_addresses getenv n) s0) as [s1 [e|[]]]
  end; cbn [fst events iot_clients] in *; injection Hl as <-;
    cbn [app] in *.
  - by rewrite Hd, Hl'.
  - unfold for_clients. rewrite Hl'.
    destruct (join_loop_extends (constructed fails evs) s1 _ Hl')
      as (evs2 & (Hd2 & l2 & Hl2 & Hl2') & Hc2 & Hst2).
    rewrite Hl' in Hl2. injection Hl2 as <-.
    rewrite Hl2', Hd2, Hd, app_nil_r. unfold constructed, stopped in *.
    rewrite !omap_app. cbn [app]. rewrite Hc2, Hst2, Hst, !app_nil_r. done.
Qed.

(** The [except] clauses print at most one line and touch nothing else. *)
Lemma except_extends (e : exception) (s : frame) :
  ∃ evs : list event,
    events (fst (except e s)) = events s ++ evs ∧
    iot_clients (fst (except e s)) = iot_clients s ∧
    constructed fails evs = [] ∧ stopped evs = [].
Proof.
  unfold except. iot_unfold.
  destruct (caught_first (cls e)); [by eexists [_]|].
  destruct (is_exception (cls e)); [by eexists [_]|].
  exists []. by rewrite app_nil_r.
Qed.

(** X18.  A failure before [iot_clients] is assigned (an unknown
    algorithm code, [NUM_EDGE_NODES] unset or not an integer) is printed
    by one of the [except] clauses, and then the [finally] block, which
    reads the unassigned variable, raises [UnboundLocalError] out of
    [start_iot]: no client is ever constructed. *)
Theorem start_iot_early_failure (device_id algo_code : string)
    (iterations : Z) :
  DATA_CONFIG !! algo_code = None ∨
  getenv "NUM_EDGE_NODES" = None ∨
  (∃ v : string, getenv "NUM_EDGE_NODES" = Some v ∧ parse_int v = None) →
  ∃ e : exception,
    start_iot' device_id algo_code iterations =
      ([ if caught_first (cls e) then PrintError e else PrintUnexpected e ],
       inl unbound).
Proof.
  intros Hearly.
  destruct (try_block_early device_id algo_code iterations Hearly)
    as (e & Htry & Hexc).
  exists e. unfold start_iot. fold fresh. rewrite Htry.
  unfold except. rewrite Hexc. by destruct (caught_first (cls e)).
Qed.

(** After an early failure the only event is the printed line. *)
Lemma start_iot_early_events (device_id algo_code : string) (iterations : Z) :
  DATA_CONFIG !! algo_code = None ∨
  getenv "NUM_EDGE_NODES" = None ∨
  (∃ v : string, getenv "NUM_EDGE_NODES" = Some v ∧ parse_int v = None) →
  ∃ ev : event,
    fst (start_iot' device_id algo_code iterations) = [ev] ∧
    stopped [ev] = [] ∧ constructed fails [ev] = [].
Proof.
  intros Hearly.
  destruct (try_block_early device_id algo_code iterations Hearly)
    as (e & Htry & Hexc).
  unfold start_iot. fold fresh. rewrite Htry.
  unfold except. rewrite Hexc.
  destruct (caught_first (cls e)); by eexists.
Qed.

(** X19.  Whatever fails among the constructions, starts and joins,
    provided [stop] itself does not raise: the clients [start_iot] stops
    are exactly the clients whose construction returned, each once and
    in the order they were constructed. *)
Theorem start_iot_stops_constructed (device_id algo_code : string)
    (iterations : Z) :
  (∀ c : string, fails (Stop c) = None) →
  stopped (fst (start_iot' device_id algo_code iterations)) =
    constructed fails (fst (start_iot' device_id algo_code iterations)).
Proof.
  intros Hstop.
  destruct (DATA_CONFIG !! algo_code) as [algo|] eqn:Hcfg.
  2:{ destruct (start_iot_early_events device_id algo_code iterations
                  (or_introl Hcfg)) as (ev & -> & -> & ->).
      done. }
  destruct (getenv "NUM_EDGE_NODES") as [v|] eqn:Henv.
  2:{ destruct (start_iot_early_events device_id algo_code iterations
                  (or_intror (or_introl Henv))) as (ev & -> & -> & ->).
      done. }
  destruct (parse_int v) as [n|] eqn:Hint.
  2:{ destruct (start_iot_early_events device_id algo_code iterations
                  (or_intror (or_intror (ex_intro _ v (conj Henv Hint)))))
        as (ev & -> & -> & ->).
      done. }
  pose proof (try_block_bound device_id algo_code iterations algo v n
                Hcfg Henv Hint) as [Hl Hst].
  unfold start_iot. fold fresh.
  destruct (try_block' device_id algo_code iterations fresh) as [s1 r1].
  cbn [fst] in Hl, Hst.
  assert (∃ (s2 : frame) (r2 : exception + unit) (evs : list event),
    match r1 with inl e => except e s1 | inr _ => (s1, inr tt) end = (s2, r2) ∧
    events s2 = events s1 ++ evs ∧ iot_clients s2 = iot_clients s1 ∧
    constructed fails evs = [] ∧ stopped evs = [])
    as (s2 & r2 & evs & -> & Hd2 & Hl2 & Hc2 & Hst2).
  { destruct r1 as [e|[]].
    - destruct (except_extends e s1) as (evs & ? & ? & ? & ?).
      destruct (except e s1) as [s2 r2]. by exists s2, r2, evs.
    - exists s1, (inr tt), []. by rewrite app_nil_r. }
  unfold finally, for_clients. rewrite Hl2, Hl.
  rewrite stop_loop_returns by done. cbn [fst events].
  rewrite Hd2. unfold constructed, stopped in *.
  rewrite !omap_app.
  fold (stopped (Call ∘ Stop <$> omap
          (λ ev, match ev with
                 | Call (New c a d g n0) =>
                     match fails (New c a d g n0) with
                     | None => Some c
                     | Some _ => None
                     end
                 | _ => None
                 end) (events s1))).
  rewrite stopped_stops.
  fold (constructed fails (Call ∘ Stop <$> omap
          (λ ev, match ev with
                 | Call (New c a d g n0) =>
                     match fails (New c a d g n0) with
                     | None => Some c
                     | Some _ => None
                     end
                 | _ => None
                 end) (events s1))).
  rewrite constructed_stops, Hst, Hc2, Hst2. cbn [app].
  by rewrite !app_nil_r.
Qed.

Lemma create_loop_returns (device_id : string) (algo : gmap string string)
    (data_dir algo_code : string) (iterations : Z) (i : nat)
    (addresses : list (option string)) (s : frame) (l : list string) :
  (∀ c : client_call, fails c = None) →
  algo !! "data_dir" = Some data_dir →
  iot_clients s = Some l →
  create_loop fails device_id algo algo_code iterations i addresses s =
    ({| events := events s ++
          creation_calls device_id data_dir algo_code iterations i addresses;
        iot_clients :=
          Some (l ++ (client_id device_id <$> seq i (length addresses))) |},
     inr tt).
Proof.
  intros Hok Hdir. revert i s l.
  induction addresses as [|a rest IH]; intros i s l Hl.
  - cbn. rewrite !app_nil_r, <- Hl. by destruct s.
  - cbn [create_loop]. iot_unfold. rewrite Hdir, !Hok.
    cbn [iot_clients events]. rewrite Hl.
    erewrite IH by reflexivity. cbn.
    by rewrite <- !app_assoc.
Qed.

Lemma join_loop_returns (clients : list string) (s : frame) :
  (∀ c : client_call, fails c = None) →
  join_loop fails clients s =
    ({| events := events s ++ (Call ∘ Join <$> clients);
        iot_clients := iot_clients s |}, inr tt).
Proof.
  intros Hok. revert s. induction clients as [|c rest IH]; intros s.
  - cbn. rewrite app_nil_r. by destruct s.
  - cbn [join_loop]. iot_unfold. rewrite Hok, IH. cbn.
    by rewrite <- app_assoc.
Qed.

(** The calls of the first loop, client by client. *)
Lemma creation_calls_numbered (device_id data_dir algo_code : string)
    (iterations : Z) (i k : nat) :
  creation_calls device_id data_dir algo_code iterations i
    ((λ j, getenv ("EDGE_" +:+ pretty (S j) +:+ "_ADDRESS")) <$> seq i k) =
  flat_map
    (λ j, [ Call (New (device_id +:+ "-t" +:+ pretty j)
                    (getenv ("EDGE_" +:+ pretty j +:+ "_ADDRESS"))
                    data_dir algo_code iterations);
            Call (Start (device_id +:+ "-t" +:+ pretty j)) ])
    (seq (S i) k).
Proof.
  revert i. induction k as [|k IH]; intros i; [done|].
  cbn [seq fmap list_fmap creation_calls flat_map app].
  unfold client_id at 1 2. do 2 f_equal. apply IH.
Qed.

Lemma client_ids_numbered (device_id : string) (k : nat) :
  client_id device_id <$> seq 0 k =
    (λ j, device_id +:+ "-t" +:+ pretty j) <$> seq 1 k.
Proof. by rewrite <- fmap_S_seq, <- list_fmap_compose. Qed.

(** X20.  When every call on the client class returns, [start_iot] with
    a configured algorithm and [NUM_EDGE_NODES] = [n] constructs and
    starts, for [i] from 1 to [n] in turn, the client named
    [device_id-t<i>] with the address held by [EDGE_<i>_ADDRESS], then
    joins them all, then stops them all, prints nothing and returns; the
    device ids of the clients are pairwise distinct. *)
Theorem start_iot_all_return (device_id algo_code : string) (iterations : Z)
    (algo : gmap string string) (data_dir v : string) (n : Z) :
  DATA_CONFIG !! algo_code = Some algo →
  algo !! "data_dir" = Some data_dir →
  getenv "NUM_EDGE_NODES" = Some v →
  parse_int v = Some n →
  (∀ c : client_call, fails c = None) →
  let ids :=
    (λ i, device_id +:+ "-t" +:+ pretty i) <$> seq 1 (Z.to_nat n) in
  start_iot' device_id algo_code iterations =
    (flat_map
       (λ i, [ Call (New (device_id +:+ "-t" +:+ pretty i)
                       (getenv ("EDGE_" +:+ pretty i +:+ "_ADDRESS"))
                       data_dir algo_code iterations);
               Call (Start (device_id +:+ "-t" +:+ pretty i)) ])
       (seq 1 (Z.to_nat n)) ++
     (Call ∘ Join <$> ids) ++ (Call ∘ Stop <$> ids), inr tt) ∧
  NoDup ids.
Proof.
  intros Hcfg Hdir Henv Hint Hok ids. unfold ids.
  rewrite <- client_ids_numbered,
    <- (creation_calls_numbered device_id data_dir algo_code iterations 0).
  fold (edge_node_addresses getenv n). split.
  - unfold start_iot, try_block, num_edge_nodes.
    rewrite Hcfg, Henv, Hint.
    cbv [mbind M_bind StartIot.bind mret M_ret StartIot.ret set_clients].
    cbn [events].
    erewrite create_loop_returns by done.
    unfold for_clients at 1. cbn [iot_clients].
    rewrite join_loop_returns by done.
    unfold finally, for_clients. cbn [iot_clients].
    rewrite stop_loop_returns by done. cbn [events app].
    unfold edge_node_addresses at 2 3 4. rewrite length_fmap, length_seq.
    by rewrite <- !app_assoc.
  - apply NoDup_fmap_2; [apply client_id_inj|apply NoDup_seq].
Qed.

End StartIotFacts.

(** X18 at an algorithm code that is not configured. *)
Lemma start_iot_early_failure_witness :
  ∃ e : StartIot.exception,
    StartIot.start_iot SampleIot.DATA_CONFIG SampleIot.getenv
      SampleIot.parse_int SampleIot.all_return "iot-1" "bert" 5 =
      ([ if StartIot.caught_first (StartIot.cls e)
         then StartIot.PrintError e else StartIot.PrintUnexpected e ],
       inl StartIot.unbound).
Proof.
  apply (start_iot_early_failure SampleIot.DATA_CONFIG SampleIot.getenv
           SampleIot.parse_int SampleIot.all_return "iot-1" "bert" 5).
  left. reflexivity.
Defined.

(** X19 when starting the second of two clients fails. *)
Lemma start_iot_stops_constructed_witness :
  StartIot.stopped
    (fst (StartIot.start_iot SampleIot.DATA_CONFIG SampleIot.getenv
            SampleIot.parse_int SampleIot.second_start_fails
            "iot-1" "yolo" 5)) =
  StartIot.constructed SampleIot.second_start_fails
    (fst (StartIot.start_iot SampleIot.DATA_CONFIG SampleIot.getenv
            SampleIot.parse_int SampleIot.second_start_fails
            "iot-1" "yolo" 5)).
Proof.
  apply (start_iot_stops_constructed SampleIot.DATA_CONFIG SampleIot.getenv
           SampleIot.parse_int SampleIot.second_start_fails "iot-1" "yolo" 5).
  intros c. reflexivity.
Defined.

(** X20 with two edge nodes. *)
Lemma start_iot_all_return_witness :
  StartIot.start_iot SampleIot.DATA_CONFIG SampleIot.getenv
    SampleIot.parse_int SampleIot.all_return "iot-1" "yolo" 5 =
    ([ StartIot.Call
         (StartIot.New "iot-1-t1" (Some "http://edge-1:10000")
            "data/coco" "yolo" 5);
       StartIot.Call (StartIot.Start "iot-1-t1");
       StartIot.Call
         (StartIot.New "iot-1-t2" (Some "http://edge-2:10000")
            "data/coco" "yolo" 5);
       StartIot.Call (StartIot.Start "iot-1-t2");
       StartIot.Call (StartIot.Join "iot-1-t1");
       StartIot.Call (StartIot.Join "iot-1-t2");
       StartIot.Call (StartIot.Stop "iot-1-t1");
       StartIot.Call (StartIot.Stop "iot-1-t2") ], inr tt) ∧
  NoDup ["iot-1-t1"; "iot-1-t2"].
Proof.
  generalize
    (start_iot_all_return SampleIot.DATA_CONFIG SampleIot.getenv
       SampleIot.parse_int SampleIot.all_return "iot-1" "yolo" 5
       {[ "data_dir" := "data/coco" ]} "data/coco" "2" 2
       eq_refl eq_refl eq_refl eq_refl (λ _, eq_refl)).
  vm_compute. exact (λ H, H).
Defined.
